(** * Kusto ingest/query smoke-test client (main.go): a shallow embedding

    The program is a straight line of SDK calls with Go's usual
    [if err != nil { return ... }] error propagation, two [defer]red
    closes and one [for ... range] loop over a channel of rows.

    The embedding keeps that shape.  Every call into the Azure SDK, the
    [os], [time] and [log] packages is a primitive of a small monad [Go]:
    it appends one [Event] to the run's trace and takes its answer from a
    [World], the record of what the outside would answer.  Quantifying a
    theorem over every [World] quantifies it over every behaviour of the
    cluster, the identity provider and the file system. *)

From Stdlib Require Import String Ascii List ZArith NArith Lia Bool.
From Stdlib Require Import DecimalString Sorted.
Import ListNotations.

Local Open Scope string_scope.
Local Open Scope list_scope.
Local Open Scope Z_scope.

Notation "s1 +++ s2" := (String.append s1 s2)
  (at level 60, right associativity) : string_scope.

(* ================================================================== *)
(** ** Go errors *)

(** A Go [error] value.  [fmt.Errorf] without a [%w] verb (and
    [errors.New]) builds an error that only has a text; with [%w] it also
    remembers the error it wraps. *)
Inductive error : Type :=
| ErrorString (msg : string)
| WrapError (msg : string) (cause : error).

(** [err.Error()] *)
Definition Error (e : error) : string :=
  match e with
  | ErrorString msg => msg
  | WrapError msg _ => msg
  end.

(** [errors.Unwrap(err)] *)
Definition Unwrap (e : error) : option error :=
  match e with
  | ErrorString _ => None
  | WrapError _ cause => Some cause
  end.

(** [fmt.Errorf(prefix + "%v", err)] *)
Definition Errorf_v (prefix : string) (err : error) : error :=
  ErrorString (prefix +++ Error err).

(** [fmt.Errorf(prefix + "%w", err)] *)
Definition Errorf_w (prefix : string) (err : error) : error :=
  WrapError (prefix +++ Error err) err.

(* ================================================================== *)
(** ** Constants and [AuthType] *)

Definition KustoURL : string := "https://ravpateadx.eastus.kusto.windows.net".

(** [type AuthType int] *)
Definition AuthType : Type := Z.

(** [const ( BearerToken AuthType = iota; Interactive )] *)
Definition BearerToken : AuthType := 0.
Definition Interactive : AuthType := 1.

(** [func (a AuthType) String() string] *)
Definition AuthType_String (a : AuthType) : string :=
  if a =? BearerToken then "BearerToken"
  else if a =? Interactive then "Interactive"
  else "Unknown".

(** [fmt.Sprint(authType)]: [AuthType] implements [fmt.Stringer], so the
    operand is printed through its [String] method. *)
Definition Sprint_AuthType (a : AuthType) : string := AuthType_String a.

(* ================================================================== *)
(** ** SDK data, as far as the program looks into it *)

(** [azcore.AccessToken]; the program reads the [Token] field only. *)
Record AccessToken : Type := { Token : string }.

(** [azkustodata.ConnectionStringBuilder], with the fields the program's
    three builder calls set. *)
Record ConnectionStringBuilder : Type := {
  DataSource : string;
  UserToken : string;
  DefaultAuth : bool
}.

(** [azkustodata.NewConnectionStringBuilder(connStr)] *)
Definition NewConnectionStringBuilder (connStr : string)
  : ConnectionStringBuilder :=
  {| DataSource := connStr; UserToken := ""; DefaultAuth := false |}.

(** [kcsb.WitAadUserToken(usertoken)] (the SDK spells it so) *)
Definition WitAadUserToken (kcsb : ConnectionStringBuilder) (usertoken : string)
  : ConnectionStringBuilder :=
  {| DataSource := DataSource kcsb; UserToken := usertoken; DefaultAuth := false |}.

(** [kcsb.WithDefaultAzureCredential()] *)
Definition WithDefaultAzureCredential (kcsb : ConnectionStringBuilder)
  : ConnectionStringBuilder :=
  {| DataSource := DataSource kcsb; UserToken := ""; DefaultAuth := true |}.

(** Handles the SDK gives out.  They are opaque to the program; the
    number tells two handles apart. *)
Inductive DeviceCodeCredential : Type := DeviceCodeCredentialH (id : nat).
Inductive Client : Type := ClientH (id : nat).
Inductive Ingestion : Type := IngestionH (id : nat).

(** [azkustoingest.WithDefaultDatabase], [azkustoingest.WithDefaultTable] *)
Inductive IngestOption : Type :=
| WithDefaultDatabase (db : string)
| WithDefaultTable (table : string).

(** [azkustoingest.FileOption] values; the three the program uses and two
    it does not, so that "exactly these" says something. *)
Inductive FileOption : Type :=
| DeleteSource
| FlushImmediately
| ReportResultToTable
| IgnoreSizeLimit
| DontCompress.

(** [*azkustoingest.Result]: [Result_Wait] is the value that arrives on
    the channel [status.Wait(ctx)] ([None] is a nil error). *)
Record Result : Type := { Result_Wait : option error }.

(** A result row: its column values in order. *)
Definition Row : Type := list string.

(** [query.RowResult]: [Row()] and [Err()]. *)
Record RowResult : Type := {
  RowResult_Row : Row;
  RowResult_Err : option error
}.

(** [query.TableResult]: [Table()] and [Err()].  The table is given by
    the row results that its [Rows()] channel delivers before it is
    closed, in order. *)
Record TableResult : Type := {
  TableResult_Rows : list RowResult;
  TableResult_Err : option error
}.

(** [query.IterativeDataset]: the table results that its [Tables()]
    channel delivers before it is closed, in order. *)
Record Dataset : Type := {
  Dataset_id : nat;
  Dataset_Tables : list TableResult
}.

(* ================================================================== *)
(** ** [time.Time] and [Format(time.RFC3339)] *)

(** The fields of a [time.Time] in UTC that the RFC3339 layout prints. *)
Record Time : Type := {
  Year : Z; Month : Z; Day : Z; Hour : Z; Minute : Z; Second : Z
}.

(** [n] zeros. *)
Fixpoint zeros (n : nat) : string :=
  match n with
  | O => EmptyString
  | S k => String "0" (zeros k)
  end.

(** Left padding with zeros up to [width] characters. *)
Definition zero_pad (width : nat) (s : string) : string :=
  zeros (width - String.length s) +++ s.

(** The [time] package's [appendInt(b, x, width)]: a minus sign for a
    negative [x], then the decimal digits of [|x|], zero-padded. *)
Definition appendInt (x : Z) (width : nat) : string :=
  (if x <? 0 then "-" else "")
  +++ zero_pad width (NilEmpty.string_of_uint (N.to_uint (Z.abs_N x))).

(** [t.Format(time.RFC3339)] for a time in UTC: the layout
    [2006-01-02T15:04:05Z07:00], whose zone prints as [Z]. *)
Definition Format_RFC3339 (t : Time) : string :=
  appendInt (Year t) 4 +++ "-" +++ appendInt (Month t) 2 +++ "-"
  +++ appendInt (Day t) 2 +++ "T" +++ appendInt (Hour t) 2 +++ ":"
  +++ appendInt (Minute t) 2 +++ ":" +++ appendInt (Second t) 2 +++ "Z".

(* ================================================================== *)
(** ** The outside world and the trace of a run *)

(** What the outside answers to each call.  An SDK constructor returns
    either its value or an error ([inl] / [inr]); a call that returns
    only an [error] answers [None] for nil. *)
Record World : Type := {
  azidentity_NewDeviceCodeCredential : DeviceCodeCredential + error;
  cred_GetToken : DeviceCodeCredential -> list string -> AccessToken + error;
  azkustodata_New : option ConnectionStringBuilder -> Client + error;
  azkustoingest_New :
    option ConnectionStringBuilder -> list IngestOption -> Ingestion + error;
  time_Now_UTC : Time;
  os_WriteFile : string -> string -> Z -> option error;
  ingestor_FromFile : Ingestion -> string -> list FileOption -> Result + error;
  client_IterativeQuery : option Client -> string -> string -> Dataset + error
}.

(** One entry per call that leaves the program, with its arguments. *)
Inductive Event : Type :=
| EvLog (line : string)
| EvLogRow (row : Row)
| EvNewDeviceCodeCredential
| EvGetToken (cred : DeviceCodeCredential) (scopes : list string)
| EvKustoNew (kcsb : option ConnectionStringBuilder)
| EvClientClose (client : option Client)
| EvIngestNew (kcsb : option ConnectionStringBuilder) (opts : list IngestOption)
| EvIngestorClose (ingestor : Ingestion)
| EvTimeNow
| EvWriteFile (name : string) (data : string) (perm : Z)
| EvFromFile (ingestor : Ingestion) (path : string) (opts : list FileOption)
| EvStatusWait (status : Result)
| EvIterativeQuery (client : option Client) (db : string) (query : string)
| EvDatasetClose (dataset : Dataset)
| EvRecvTable (tr : option TableResult)
| EvRecvRow (rr : RowResult).

Definition Trace : Type := list Event.

(* ================================================================== *)
(** ** The monad [Go] *)

(** What a [panic] carries. *)
Inductive PanicValue : Type :=
| PanicError (err : error)
| PanicNilDereference.

(** How a function call ends. *)
Inductive Completion (A : Type) : Type :=
| Returns (a : A)
| Panics (v : PanicValue).
Arguments Returns {A} a.
Arguments Panics {A} v.

Definition Go (A : Type) : Type := World -> Trace * Completion A.

Definition ret {A} (a : A) : Go A := fun _ => ([], Returns a).

Definition bind {A B} (m : Go A) (f : A -> Go B) : Go B :=
  fun w =>
    match m w with
    | (t1, Returns a) => let (t2, c) := f a w in (t1 ++ t2, c)
    | (t1, Panics v) => (t1, Panics v)
    end.

Definition panic {A} (v : PanicValue) : Go A := fun _ => ([], Panics v).

(** A call that leaves the program: logged, answered by the world. *)
Definition call {A} (ev : Event) (answer : World -> A) : Go A :=
  fun w => ([ev], Returns (answer w)).

(** [defer cleanup(); body]: [body] is the rest of the function after the
    [defer] statement; [cleanup] runs when [body] is left, by [return] or
    by [panic] alike. *)
Definition defer {A} (cleanup : Go unit) (body : Go A) : Go A :=
  fun w =>
    let (t1, c) := body w in
    let (t2, _) := cleanup w in
    (t1 ++ t2, c).

Declare Scope go_scope.
Delimit Scope go_scope with go.
Notation "x <- m ;; k" := (bind m (fun x => k))
  (at level 61, m at next level, right associativity) : go_scope.
Notation "m ;; k" := (bind m (fun _ => k))
  (at level 61, right associativity) : go_scope.
Notation "' pat <- m ;; k" := (bind m (fun x => match x with pat => k end))
  (at level 61, pat pattern, m at next level, right associativity) : go_scope.
Local Open Scope go_scope.

Definition trace_of {A} (m : Go A) (w : World) : Trace := fst (m w).
Definition completion_of {A} (m : Go A) (w : World) : Completion A := snd (m w).

(* ================================================================== *)
(** ** The calls that leave the program *)

(** [log.Println(a, b, ...)] of strings: the operands separated by one
    space each.  The line is given without the logger's date prefix. *)
Definition log_Println (operands : list string) : Go unit :=
  call (EvLog (String.concat " " operands)) (fun _ => tt).

(** [log.Println(row)] *)
Definition log_Println_row (row : Row) : Go unit :=
  call (EvLogRow row) (fun _ => tt).

Definition NewDeviceCodeCredential : Go (DeviceCodeCredential + error) :=
  call EvNewDeviceCodeCredential azidentity_NewDeviceCodeCredential.

Definition GetToken (cred : DeviceCodeCredential) (scopes : list string)
  : Go (AccessToken + error) :=
  call (EvGetToken cred scopes) (fun w => cred_GetToken w cred scopes).

Definition azkustodata_New_call (kcsb : option ConnectionStringBuilder)
  : Go (Client + error) :=
  call (EvKustoNew kcsb) (fun w => azkustodata_New w kcsb).

Definition client_Close (client : option Client) : Go unit :=
  call (EvClientClose client) (fun _ => tt).

Definition azkustoingest_New_call (kcsb : option ConnectionStringBuilder)
  (opts : list IngestOption) : Go (Ingestion + error) :=
  call (EvIngestNew kcsb opts) (fun w => azkustoingest_New w kcsb opts).

Definition ingestor_Close (ingestor : Ingestion) : Go unit :=
  call (EvIngestorClose ingestor) (fun _ => tt).

(** [time.Now().UTC()] *)
Definition time_Now : Go Time := call EvTimeNow time_Now_UTC.

Definition WriteFile (name data : string) (perm : Z) : Go (option error) :=
  call (EvWriteFile name data perm) (fun w => os_WriteFile w name data perm).

Definition FromFile (ingestor : Ingestion) (path : string)
  (opts : list FileOption) : Go (Result + error) :=
  call (EvFromFile ingestor path opts)
       (fun w => ingestor_FromFile w ingestor path opts).

(** [<-status.Wait(ctx)] *)
Definition status_Wait (status : Result) : Go (option error) :=
  call (EvStatusWait status) (fun _ => Result_Wait status).

Definition IterativeQuery (client : option Client) (db query : string)
  : Go (Dataset + error) :=
  call (EvIterativeQuery client db query)
       (fun w => client_IterativeQuery w client db query).

Definition dataset_Close (dataset : Dataset) : Go unit :=
  call (EvDatasetClose dataset) (fun _ => tt).

(** [<-dataset.Tables()]: the first table result on the channel, or the
    nil interface value when the channel is closed and empty. *)
Definition recv_Tables (dataset : Dataset) : Go (option TableResult) :=
  let first := hd_error (Dataset_Tables dataset) in
  call (EvRecvTable first) (fun _ => first).

(* ================================================================== *)
(** ** The program *)

(** [func getAzBearerToken()], returning a pointer to an
    [azcore.AccessToken] and an [error]. *)
Definition getAzBearerToken : Go (option AccessToken * option error) :=
  r <- NewDeviceCodeCredential ;;
  match r with
  | inr err => ret (None, Some (Errorf_v "failed to obtain a credential: " err))
  | inl cred =>
      r <- GetToken cred [KustoURL +++ "/.default"] ;;
      match r with
      | inr err => ret (None, Some (Errorf_v "failed to get a token: " err))
      | inl token => ret (Some token, None)
      end
  end.

(** [func getKustoConnStr(authType AuthType)], returning a pointer to an
    [azkustodata.ConnectionStringBuilder] and an [error]. *)
Definition getKustoConnStr (authType : AuthType)
  : Go (option ConnectionStringBuilder * option error) :=
  if authType =? BearerToken then
    '(accessToken, err) <- getAzBearerToken ;;
    match err with
    | Some e => ret (None, Some e)
    | None =>
        match accessToken with
        | None => panic PanicNilDereference
        | Some tok =>
            ret (Some (WitAadUserToken (NewConnectionStringBuilder KustoURL)
                                       (Token tok)),
                 None)
        end
    end
  else if authType =? Interactive then
    ret (Some (WithDefaultAzureCredential (NewConnectionStringBuilder KustoURL)),
         None)
  else
    ret (None,
         Some (ErrorString ("invalid auth type: " +++ Sprint_AuthType authType))).

(** [func getKustoClient(kcsb)], returning a pointer to an
    [azkustodata.Client] and an [error]. *)
Definition getKustoClient (kcsb : option ConnectionStringBuilder)
  : Go (option Client * option error) :=
  r <- azkustodata_New_call kcsb ;;
  match r with
  | inr err => ret (None, Some (Errorf_w "error creating kusto client: " err))
  | inl client => ret (Some client, None)
  end.

(** The text [ingestData] builds with
    [fmt.Sprintf(`.ingest inline into table ravpateTable <| %s,Sql,Isgood`,
                 currentTime.Format(time.RFC3339))]. *)
Definition ingestQuery (currentTime : Time) : string :=
  ".ingest inline into table ravpateTable <| "
  +++ Format_RFC3339 currentTime +++ ",Sql,Isgood".

(** [ingestOptions] *)
Definition ingestOptions : list FileOption :=
  [DeleteSource; FlushImmediately; ReportResultToTable].

(** The horizontal tab, Go's ["\t"]. *)
Definition tab : string := String (ascii_of_nat 9) "".

(** [ingestData] after [defer ingestor.Close()]. *)
Definition ingestData_body (ingestor : Ingestion) : Go (option error) :=
  currentTime <- time_Now ;;
  log_Println ["Writing ingest query to ingest.kql..."] ;;
  log_Println [tab; ingestQuery currentTime] ;;
  _ <- WriteFile "ingest.kql" (ingestQuery currentTime) 420 (* 0644 *) ;;
  log_Println ["Running ingest query now..."] ;;
  r <- FromFile ingestor "./ingest.kql" ingestOptions ;;
  match r with
  | inr err => ret (Some (Errorf_w "error ingesting data: " err))
  | inl status =>
      err <- status_Wait status ;;
      match err with
      | Some e => ret (Some (Errorf_w "error waiting for ingest: " e))
      | None => ret None
      end
  end.

(** [func ingestData(kcsb) error] *)
Definition ingestData (kcsb : option ConnectionStringBuilder)
  : Go (option error) :=
  r <- azkustoingest_New_call kcsb
         [WithDefaultDatabase "ArcSqlTelemetry"; WithDefaultTable "ravpateTable"] ;;
  match r with
  | inr err => ret (Some (Errorf_w "error creating ingestor: " err))
  | inl ingestor => defer (ingestor_Close ingestor) (ingestData_body ingestor)
  end.

(** [for rowResult := range primaryResult.Table().Rows() { ... }] followed
    by the function's final [return nil]: one receive per iteration; a
    row result with an error returns from the function; an exhausted
    channel ends the loop. *)
Fixpoint range_Rows (rows : list RowResult) : Go (option error) :=
  match rows with
  | [] => ret None
  | rowResult :: rest =>
      call (EvRecvRow rowResult) (fun _ => tt) ;;
      match RowResult_Err rowResult with
      | Some e => ret (Some (Errorf_w "error getting row result: " e))
      | None =>
          log_Println_row (RowResult_Row rowResult) ;;
          range_Rows rest
      end
  end.

(** [getData] after [defer dataset.Close()]. *)
Definition getData_body (dataset : Dataset) : Go (option error) :=
  primaryResult <- recv_Tables dataset ;;
  match primaryResult with
  | None => panic PanicNilDereference
  | Some primaryResult =>
      match TableResult_Err primaryResult with
      | Some e => ret (Some (Errorf_w "error getting primary result: " e))
      | None =>
          log_Println ["Results:"] ;;
          log_Println [] ;;
          range_Rows (TableResult_Rows primaryResult)
      end
  end.

(** [func getData(client) error] *)
Definition getData (client : option Client) : Go (option error) :=
  r <- IterativeQuery client "ArcSqlTelemetry"
         "ravpateTable | order by Timestamp desc | take 5" ;;
  match r with
  | inr err => ret (Some (Errorf_w "error querying dataset: " err))
  | inl dataset => defer (dataset_Close dataset) (getData_body dataset)
  end.

(** [func main()].  [panic(err)] ends the run; the deferred
    [client.Close()] still runs. *)
Definition main : Go unit :=
  let authType := BearerToken in
  log_Println ["Auth type: "; AuthType_String authType] ;;
  '(kcsb, err) <- getKustoConnStr authType ;;
  match err with
  | Some e => panic (PanicError e)
  | None =>
      '(client, err) <- getKustoClient kcsb ;;
      match err with
      | Some e => panic (PanicError e)
      | None =>
          defer (client_Close client)
            (log_Println ["Ingesting data..."] ;;
             err <- ingestData kcsb ;;
             match err with
             | Some e => panic (PanicError e)
             | None =>
                 log_Println ["Getting data..."] ;;
                 err <- getData client ;;
                 match err with
                 | Some e => panic (PanicError e)
                 | None => log_Println ["Done."]
                 end
             end)
      end
  end.

(* ================================================================== *)
(** ** A sample world *)

Module Sample.

Definition t0 : Time :=
  {| Year := 2024; Month := 1; Day := 1; Hour := 0; Minute := 0; Second := 0 |}.

Definition row (ts : string) : RowResult :=
  {| RowResult_Row := [ts; "Sql"; "Isgood"]; RowResult_Err := None |}.

Definition bad_row : RowResult :=
  {| RowResult_Row := []; RowResult_Err := Some (ErrorString "row decode") |}.

Definition table (rows : list RowResult) : TableResult :=
  {| TableResult_Rows := rows; TableResult_Err := None |}.

Definition dataset (rows : list RowResult) : Dataset :=
  {| Dataset_id := 7; Dataset_Tables := [table rows] |}.

(** Everything succeeds; the query delivers [rows]. *)
Definition happy (rows : list RowResult) : World :=
  {| azidentity_NewDeviceCodeCredential := inl (DeviceCodeCredentialH 1);
     cred_GetToken := fun _ _ => inl {| Token := "eyJ0" |};
     azkustodata_New := fun _ => inl (ClientH 2);
     azkustoingest_New := fun _ _ => inl (IngestionH 3);
     time_Now_UTC := t0;
     os_WriteFile := fun _ _ _ => None;
     ingestor_FromFile := fun _ _ _ => inl {| Result_Wait := None |};
     client_IterativeQuery := fun _ _ _ => inl (dataset rows) |}.

Definition with_FromFile (w : World) (r : Result + error) : World :=
  {| azidentity_NewDeviceCodeCredential := azidentity_NewDeviceCodeCredential w;
     cred_GetToken := cred_GetToken w;
     azkustodata_New := azkustodata_New w;
     azkustoingest_New := azkustoingest_New w;
     time_Now_UTC := time_Now_UTC w;
     os_WriteFile := os_WriteFile w;
     ingestor_FromFile := fun _ _ _ => r;
     client_IterativeQuery := client_IterativeQuery w |}.

Definition three_rows : list RowResult :=
  [row "2024-01-01T00:00:00Z"; bad_row; row "2023-12-31T00:00:00Z"].

End Sample.


(* ================================================================== *)
(** ** Reading a trace *)

(** The entries of a list that [f] selects, in order. *)
Fixpoint filter_map {A B} (f : A -> option B) (l : list A) : list B :=
  match l with
  | [] => []
  | x :: rest =>
      match f x with
      | Some y => y :: filter_map f rest
      | None => filter_map f rest
      end
  end.

(** The ingestion handles that were closed, one entry per close. *)
Definition closed_ingestors : Trace -> list Ingestion :=
  filter_map (fun ev => match ev with EvIngestorClose i => Some i | _ => None end).

(** The datasets that were closed, one entry per close. *)
Definition closed_datasets : Trace -> list Dataset :=
  filter_map (fun ev => match ev with EvDatasetClose d => Some d | _ => None end).

(** The files handed to the ingestion service, with their options. *)
Definition submissions : Trace -> list (Ingestion * string * list FileOption) :=
  filter_map (fun ev =>
    match ev with EvFromFile i path opts => Some (i, path, opts) | _ => None end).

(** The files written, with their contents. *)
Definition files_written : Trace -> list (string * string) :=
  filter_map (fun ev =>
    match ev with EvWriteFile name data _ => Some (name, data) | _ => None end).

(** The row results taken off the rows channel. *)
Definition received_rows : Trace -> list RowResult :=
  filter_map (fun ev => match ev with EvRecvRow rr => Some rr | _ => None end).

(** The rows printed. *)
Definition logged_rows : Trace -> list Row :=
  filter_map (fun ev => match ev with EvLogRow r => Some r | _ => None end).

(** The scopes of the token requests made. *)
Definition token_requests : Trace -> list (list string) :=
  filter_map (fun ev => match ev with EvGetToken _ s => Some s | _ => None end).

(** The number of login attempts made. *)
Definition login_attempts (t : Trace) : nat :=
  List.length (filter_map
    (fun ev => match ev with EvNewDeviceCodeCredential => Some tt | _ => None end) t).

(** Running the program's functions: unfold the monad and compute. *)
Ltac go_unfold :=
  unfold trace_of, completion_of, defer, bind, call, ret, panic in *.

(** *** Stages of the orchestrator *)

(** The four calls [main] makes, in the order of the source text. *)
Inductive Stage : Type := StBuild | StClients | StIngest | StQuery.

Definition stage_index (s : Stage) : nat :=
  match s with
  | StBuild => 0 | StClients => 1 | StIngest => 2 | StQuery => 3
  end%nat.

Definition stage_le (s1 s2 : Stage) : Prop :=
  (stage_index s1 <= stage_index s2)%nat.

(** The stage an outside call belongs to: the function of [main] that
    makes it ([getKustoConnStr], [getKustoClient], [ingestData],
    [getData]).  [main]'s own log lines and its deferred
    [client.Close()] belong to none. *)
Definition stage_of (ev : Event) : option Stage :=
  match ev with
  | EvNewDeviceCodeCredential | EvGetToken _ _ => Some StBuild
  | EvKustoNew _ => Some StClients
  | EvIngestNew _ _ | EvIngestorClose _ | EvTimeNow | EvWriteFile _ _ _
  | EvFromFile _ _ _ | EvStatusWait _ => Some StIngest
  | EvIterativeQuery _ _ _ | EvDatasetClose _ | EvRecvTable _ | EvRecvRow _
  | EvLogRow _ => Some StQuery
  | EvLog _ | EvClientClose _ => None
  end.

Definition stages : Trace -> list Stage := filter_map stage_of.

(** [stage_error w s e]: in world [w] the stages before [s] return
    without error and stage [s], called as [main] calls it, returns the
    error [e]. *)
Inductive stage_error (w : World) : Stage -> error -> Prop :=
| build_error kcsb e :
    completion_of (getKustoConnStr BearerToken) w = Returns (kcsb, Some e) ->
    stage_error w StBuild e
| clients_error kcsb client e :
    completion_of (getKustoConnStr BearerToken) w = Returns (kcsb, None) ->
    completion_of (getKustoClient kcsb) w = Returns (client, Some e) ->
    stage_error w StClients e
| ingest_error kcsb client e :
    completion_of (getKustoConnStr BearerToken) w = Returns (kcsb, None) ->
    completion_of (getKustoClient kcsb) w = Returns (client, None) ->
    completion_of (ingestData kcsb) w = Returns (Some e) ->
    stage_error w StIngest e
| query_error kcsb client e :
    completion_of (getKustoConnStr BearerToken) w = Returns (kcsb, None) ->
    completion_of (getKustoClient kcsb) w = Returns (client, None) ->
    completion_of (ingestData kcsb) w = Returns None ->
    completion_of (getData client) w = Returns (Some e) ->
    stage_error w StQuery e.

(** *** Worlds that differ in one answer *)

(** The world [w] with [os.WriteFile] answering [r]. *)
Definition set_WriteFile (w : World) (r : option error) : World :=
  {| azidentity_NewDeviceCodeCredential := azidentity_NewDeviceCodeCredential w;
     cred_GetToken := cred_GetToken w;
     azkustodata_New := azkustodata_New w;
     azkustoingest_New := azkustoingest_New w;
     time_Now_UTC := time_Now_UTC w;
     os_WriteFile := fun _ _ _ => r;
     ingestor_FromFile := ingestor_FromFile w;
     client_IterativeQuery := client_IterativeQuery w |}.

(** *** The three ways an ingestion can fail *)

(** The options [ingestData] creates its ingestion client with. *)
Definition ingestor_options : list IngestOption :=
  [WithDefaultDatabase "ArcSqlTelemetry"; WithDefaultTable "ravpateTable"].

(** The failure the outside reports to an ingestion started with
    [kcsb], if any: the client cannot be constructed, or the submission
    is rejected, or the status that arrives is an error. *)
Definition ingest_failure (kcsb : option ConnectionStringBuilder) (w : World)
  : option error :=
  match azkustoingest_New w kcsb ingestor_options with
  | inr err => Some err
  | inl ingestor =>
      match ingestor_FromFile w ingestor "./ingest.kql" ingestOptions with
      | inr err => Some err
      | inl status => Result_Wait status
      end
  end.

(** *** Comma-separated values *)

(** The pieces of [s] between occurrences of [sep]. *)
Fixpoint split_on (sep : ascii) (s : string) : list string :=
  match s with
  | EmptyString => [EmptyString]
  | String c rest =>
      if Ascii.eqb c sep then EmptyString :: split_on sep rest
      else match split_on sep rest with
           | [] => [String c EmptyString]
           | field :: fields => String c field :: fields
           end
  end.

(** How often [c] occurs in [s]. *)
Fixpoint count_char (c : ascii) (s : string) : nat :=
  match s with
  | EmptyString => 0
  | String c' rest => (if Ascii.eqb c' c then 1 else 0) + count_char c rest
  end%nat.

(** The command text in front of the inline row. *)
Definition inline_header : string :=
  ".ingest inline into table ravpateTable <| ".

(** The record of the specification's data model:
    timestamp, firstName, secondName, flag. *)
Record TelemetryRecord : Type := {
  timestamp : string;
  firstName : string;
  secondName : string;
  flag : bool
}.

(** The payload as the specification words it: the record's four values
    in column order, comma-separated.  [show] is the text of the flag. *)
Definition four_field_payload (show : bool -> string) (r : TelemetryRecord)
  : string :=
  String.concat "," [timestamp r; firstName r; secondName r; show (flag r)].

(** *** The rows loop, read off the channel's content *)

(** The row results in front of the first one that carries an error. *)
Fixpoint clean_prefix (rows : list RowResult) : list RowResult :=
  match rows with
  | [] => []
  | rr :: rest =>
      match RowResult_Err rr with
      | Some _ => []
      | None => rr :: clean_prefix rest
      end
  end.

(** The first row result that carries an error, with that error. *)
Fixpoint first_bad (rows : list RowResult) : option (RowResult * error) :=
  match rows with
  | [] => None
  | rr :: rest =>
      match RowResult_Err rr with
      | Some e => Some (rr, e)
      | None => first_bad rest
      end
  end.

(** Receiving and printing each of [rows] in turn. *)
Definition rows_events (rows : list RowResult) : Trace :=
  flat_map (fun rr => [EvRecvRow rr; EvLogRow (RowResult_Row rr)]) rows.

(** The outside calls of [ingestData] up to and including the
    submission, once the client [ingestor] exists. *)
Definition ingest_prefix (kcsb : option ConnectionStringBuilder)
  (ingestor : Ingestion) (currentTime : Time) : Trace :=
  [EvIngestNew kcsb ingestor_options;
   EvTimeNow;
   EvLog "Writing ingest query to ingest.kql...";
   EvLog (tab +++ " " +++ ingestQuery currentTime);
   EvWriteFile "ingest.kql" (ingestQuery currentTime) 420;
   EvLog "Running ingest query now...";
   EvFromFile ingestor "./ingest.kql" ingestOptions].

(** The outside calls of [getData] up to the rows loop, once the
    dataset exists. *)
Definition query_prefix (client : option Client) (dataset : Dataset) : Trace :=
  [EvIterativeQuery client "ArcSqlTelemetry"
     "ravpateTable | order by Timestamp desc | take 5";
   EvRecvTable (hd_error (Dataset_Tables dataset))].

(** *** Further readings of a trace *)

(** The clients that were closed, one entry per close. *)
Definition closed_clients : Trace -> list (option Client) :=
  filter_map (fun ev => match ev with EvClientClose c => Some c | _ => None end).

(** The values taken off the tables channel. *)
Definition tables_received : Trace -> list (option TableResult) :=
  filter_map (fun ev => match ev with EvRecvTable tr => Some tr | _ => None end).

(** The descriptors handed to a client constructor, of either client. *)
Definition descriptors_used : Trace -> list (option ConnectionStringBuilder) :=
  filter_map (fun ev =>
    match ev with
    | EvKustoNew kcsb => Some kcsb
    | EvIngestNew kcsb _ => Some kcsb
    | _ => None
    end).

(** The ingestion results whose status was waited for. *)
Definition status_waits : Trace -> list Result :=
  filter_map (fun ev => match ev with EvStatusWait r => Some r | _ => None end).

(** The queries sent, with their database. *)
Definition queries : Trace -> list (option Client * string * string) :=
  filter_map (fun ev =>
    match ev with EvIterativeQuery c db q => Some (c, db, q) | _ => None end).

(** The lines logged, rows apart. *)
Definition log_lines : Trace -> list string :=
  filter_map (fun ev => match ev with EvLog line => Some line | _ => None end).

(** The descriptor of bearer-token mode. *)
Definition bearer_descriptor (token : AccessToken) : ConnectionStringBuilder :=
  WitAadUserToken (NewConnectionStringBuilder KustoURL) (Token token).

(** The query [getData] sends. *)
Definition last5_query : string :=
  "ravpateTable | order by Timestamp desc | take 5".

(** The world [w] with [azkustoingest.New] answering [r]. *)
Definition set_IngestNew (w : World) (r : Ingestion + error) : World :=
  {| azidentity_NewDeviceCodeCredential := azidentity_NewDeviceCodeCredential w;
     cred_GetToken := cred_GetToken w;
     azkustodata_New := azkustodata_New w;
     azkustoingest_New := fun _ _ => r;
     time_Now_UTC := time_Now_UTC w;
     os_WriteFile := os_WriteFile w;
     ingestor_FromFile := ingestor_FromFile w;
     client_IterativeQuery := client_IterativeQuery w |}.

(** The world [w] with [client.IterativeQuery] answering [r]. *)
Definition set_IterativeQuery (w : World) (r : Dataset + error) : World :=
  {| azidentity_NewDeviceCodeCredential := azidentity_NewDeviceCodeCredential w;
     cred_GetToken := cred_GetToken w;
     azkustodata_New := azkustodata_New w;
     azkustoingest_New := azkustoingest_New w;
     time_Now_UTC := time_Now_UTC w;
     os_WriteFile := os_WriteFile w;
     ingestor_FromFile := ingestor_FromFile w;
     client_IterativeQuery := fun _ _ _ => r |}.


(* ================================================================== *)
(** * Theorems *)

Example ingestQuery_t0 :
  ingestQuery Sample.t0
  = ".ingest inline into table ravpateTable <| 2024-01-01T00:00:00Z,Sql,Isgood".
Proof. vm_compute. reflexivity. Qed.

Lemma filter_map_app {A B} (f : A -> option B) (l1 l2 : list A) :
  filter_map f (l1 ++ l2) = filter_map f l1 ++ filter_map f l2.
Proof.
  induction l1 as [|x l1 IH]; simpl; [reflexivity|].
  destruct (f x); simpl; now rewrite IH.
Qed.

(* ================================================================== *)
(** ** C10: an auth type that is neither constant *)

(** C10.  For an [AuthType] value other than [BearerToken] and
    [Interactive], [getKustoConnStr] returns a nil descriptor with the
    error "invalid auth type: Unknown" and makes no call at all (so no
    credential is acquired), and [String] returns "Unknown". *)
Theorem getKustoConnStr_invalid_auth_type (a : AuthType) (w : World) :
  a <> BearerToken -> a <> Interactive ->
  getKustoConnStr a w
  = ([], Returns (None, Some (ErrorString "invalid auth type: Unknown")))
  /\ AuthType_String a = "Unknown".
Proof.
  intros H0 H1.
  assert (E0 : (a =? BearerToken) = false) by now apply Z.eqb_neq.
  assert (E1 : (a =? Interactive) = false) by now apply Z.eqb_neq.
  unfold getKustoConnStr, Sprint_AuthType, AuthType_String.
  rewrite E0, E1. split; reflexivity.
Qed.

Lemma getKustoConnStr_invalid_auth_type_witness :
  2 <> BearerToken /\ 2 <> Interactive /\
  getKustoConnStr 2 (Sample.happy [])
  = ([], Returns (None, Some (ErrorString "invalid auth type: Unknown")))
  /\ AuthType_String 2 = "Unknown".
Proof.
  assert (H0 : 2 <> BearerToken) by (unfold BearerToken; lia).
  assert (H1 : 2 <> Interactive) by (unfold Interactive; lia).
  split; [exact H0|]. split; [exact H1|].
  exact (getKustoConnStr_invalid_auth_type 2 (Sample.happy []) H0 H1).
Defined.

(* ================================================================== *)
(** ** C7: the token request *)

(** C7.  [getAzBearerToken] makes one login attempt.  If it fails, no
    token is requested and the failure is returned at once.  Otherwise
    exactly one token is requested, for the single scope
    [KustoURL/.default]; if that fails the failure is returned at once.
    In both failures the returned error's text ends with the SDK
    error's text, and [getKustoConnStr BearerToken] hands the same error
    to its caller without a further call. *)
Theorem getAzBearerToken_scope_no_retry (w : World) :
  let t := trace_of getAzBearerToken w in
  let scope := KustoURL +++ "/.default" in
  login_attempts t = 1%nat
  /\ match azidentity_NewDeviceCodeCredential w with
     | inr err =>
         token_requests t = []
         /\ completion_of getAzBearerToken w
            = Returns (None, Some (Errorf_v "failed to obtain a credential: " err))
         /\ getKustoConnStr BearerToken w
            = (t, Returns (None, Some (Errorf_v "failed to obtain a credential: " err)))
     | inl cred =>
         t = [EvNewDeviceCodeCredential; EvGetToken cred [scope]]
         /\ token_requests t = [[scope]]
         /\ match cred_GetToken w cred [scope] with
            | inr err =>
                completion_of getAzBearerToken w
                = Returns (None, Some (Errorf_v "failed to get a token: " err))
                /\ getKustoConnStr BearerToken w
                   = (t, Returns (None, Some (Errorf_v "failed to get a token: " err)))
            | inl token =>
                completion_of getAzBearerToken w = Returns (Some token, None)
            end
     end.
Proof.
  cbv zeta.
  unfold getKustoConnStr, getAzBearerToken, NewDeviceCodeCredential, GetToken.
  go_unfold. simpl.
  destruct (azidentity_NewDeviceCodeCredential w) as [cred|err]; simpl.
  - destruct (cred_GetToken w cred _) as [token|err]; simpl; repeat split.
  - repeat split.
Qed.

(** The scope is the literal text the identity provider sees. *)
Example token_scope_text :
  KustoURL +++ "/.default" = "https://ravpateadx.eastus.kusto.windows.net/.default".
Proof. reflexivity. Qed.

(* ================================================================== *)
(** ** C8: building the connection descriptor *)

(** C8.  Once the credential is there, building the descriptor cannot
    fail and makes no call of its own.  In bearer-token mode, if
    [getAzBearerToken] returned a token, [getKustoConnStr] returns the
    descriptor built from [KustoURL] and that token with a nil error, and
    its trace is the trace of [getAzBearerToken] alone.  In interactive
    mode, where no credential is fetched, it returns the descriptor with
    an empty trace in every world. *)
Theorem getKustoConnStr_build_never_fails (w : World) (token : AccessToken) :
  completion_of getAzBearerToken w = Returns (Some token, None) ->
  getKustoConnStr BearerToken w
  = (trace_of getAzBearerToken w,
     Returns (Some {| DataSource := KustoURL;
                      UserToken := Token token;
                      DefaultAuth := false |}, None))
  /\ getKustoConnStr Interactive w
     = ([], Returns (Some {| DataSource := KustoURL;
                             UserToken := "";
                             DefaultAuth := true |}, None)).
Proof.
  unfold getKustoConnStr, getAzBearerToken, NewDeviceCodeCredential, GetToken.
  go_unfold. simpl.
  destruct (azidentity_NewDeviceCodeCredential w) as [cred|err]; simpl.
  - destruct (cred_GetToken w cred _) as [tok|err]; simpl; intros H.
    + injection H as <-. split; reflexivity.
    + discriminate H.
  - intros H. discriminate H.
Qed.

Lemma getKustoConnStr_build_never_fails_witness :
  completion_of getAzBearerToken (Sample.happy [])
  = Returns (Some {| Token := "eyJ0" |}, None)
  /\ getKustoConnStr BearerToken (Sample.happy [])
     = (trace_of getAzBearerToken (Sample.happy []),
        Returns (Some {| DataSource := KustoURL;
                         UserToken := "eyJ0";
                         DefaultAuth := false |}, None)).
Proof.
  assert (H : completion_of getAzBearerToken (Sample.happy [])
              = Returns (Some {| Token := "eyJ0" |}, None)) by reflexivity.
  split; [exact H|].
  exact (proj1 (getKustoConnStr_build_never_fails (Sample.happy []) _ H)).
Defined.

(* ================================================================== *)
(** ** How [ingestData] and [getData] run *)

Arguments ingestQuery : simpl never.

(** The run of [ingestData], by what the outside answers. *)
Lemma ingestData_run (kcsb : option ConnectionStringBuilder) (w : World) :
  ingestData kcsb w =
  match azkustoingest_New w kcsb ingestor_options with
  | inr err =>
      ([EvIngestNew kcsb ingestor_options],
       Returns (Some (Errorf_w "error creating ingestor: " err)))
  | inl ingestor =>
      let pre := ingest_prefix kcsb ingestor (time_Now_UTC w) in
      match ingestor_FromFile w ingestor "./ingest.kql" ingestOptions with
      | inr err =>
          (pre ++ [EvIngestorClose ingestor],
           Returns (Some (Errorf_w "error ingesting data: " err)))
      | inl status =>
          (pre ++ [EvStatusWait status; EvIngestorClose ingestor],
           Returns (match Result_Wait status with
                    | Some e => Some (Errorf_w "error waiting for ingest: " e)
                    | None => None
                    end))
      end
  end.
Proof.
  unfold ingestData, ingestData_body, azkustoingest_New_call, ingestor_Close,
    time_Now, log_Println, WriteFile, FromFile, status_Wait, ingest_prefix,
    ingestor_options.
  go_unfold. simpl.
  destruct (azkustoingest_New w kcsb _) as [ingestor|err]; simpl; [|reflexivity].
  destruct (ingestor_FromFile w ingestor _ _) as [status|err]; simpl; [|reflexivity].
  destruct (Result_Wait status); reflexivity.
Qed.

(** The run of the rows loop, by the channel's content. *)
Lemma range_Rows_run (rows : list RowResult) (w : World) :
  range_Rows rows w =
  match first_bad rows with
  | Some (rr, e) =>
      (rows_events (clean_prefix rows) ++ [EvRecvRow rr],
       Returns (Some (Errorf_w "error getting row result: " e)))
  | None => (rows_events rows, Returns None)
  end.
Proof.
  induction rows as [|rr rest IH]; [reflexivity|].
  simpl. unfold log_Println_row. go_unfold. simpl.
  destruct (RowResult_Err rr) as [e|]; simpl; [reflexivity|].
  rewrite IH. destruct (first_bad rest) as [[rr' e']|]; reflexivity.
Qed.

(** The run of [getData], by what the outside answers. *)
Lemma getData_run (client : option Client) (w : World) :
  getData client w =
  match client_IterativeQuery w client "ArcSqlTelemetry"
          "ravpateTable | order by Timestamp desc | take 5" with
  | inr err =>
      ([EvIterativeQuery client "ArcSqlTelemetry"
          "ravpateTable | order by Timestamp desc | take 5"],
       Returns (Some (Errorf_w "error querying dataset: " err)))
  | inl dataset =>
      let pre := query_prefix client dataset in
      match hd_error (Dataset_Tables dataset) with
      | None => (pre ++ [EvDatasetClose dataset], Panics PanicNilDereference)
      | Some primaryResult =>
          match TableResult_Err primaryResult with
          | Some e =>
              (pre ++ [EvDatasetClose dataset],
               Returns (Some (Errorf_w "error getting primary result: " e)))
          | None =>
              (pre ++ [EvLog "Results:"; EvLog ""]
                   ++ fst (range_Rows (TableResult_Rows primaryResult) w)
                   ++ [EvDatasetClose dataset],
               snd (range_Rows (TableResult_Rows primaryResult) w))
          end
      end
  end.
Proof.
  unfold getData, getData_body, IterativeQuery, dataset_Close, recv_Tables,
    log_Println, query_prefix.
  go_unfold. simpl.
  destruct (client_IterativeQuery w client _ _) as [dataset|err]; simpl;
    [|reflexivity].
  destruct (hd_error (Dataset_Tables dataset)) as [primaryResult|]; simpl;
    [|reflexivity].
  destruct (TableResult_Err primaryResult); simpl; [reflexivity|].
  destruct (range_Rows (TableResult_Rows primaryResult) w) as [t c].
  reflexivity.
Qed.

Lemma clean_prefix_app (pre post : list RowResult) (rr : RowResult) (e : error) :
  Forall (fun r => RowResult_Err r = None) pre ->
  RowResult_Err rr = Some e ->
  clean_prefix (pre ++ rr :: post) = pre
  /\ first_bad (pre ++ rr :: post) = Some (rr, e).
Proof.
  intros Hpre Hrr. induction Hpre as [|r pre Hr Hpre IH]; simpl.
  - rewrite Hrr. split; reflexivity.
  - rewrite Hr. destruct IH as [-> ->]. split; reflexivity.
Qed.

Lemma received_rows_events (rows : list RowResult) :
  received_rows (rows_events rows) = rows.
Proof.
  induction rows as [|rr rows IH]; simpl; [reflexivity|].
  unfold received_rows in *. simpl. now rewrite IH.
Qed.

Lemma logged_rows_events (rows : list RowResult) :
  logged_rows (rows_events rows) = map RowResult_Row rows.
Proof.
  induction rows as [|rr rows IH]; simpl; [reflexivity|].
  unfold logged_rows in *. simpl. now rewrite IH.
Qed.

Lemma closed_datasets_rows_events (rows : list RowResult) :
  closed_datasets (rows_events rows) = [].
Proof.
  induction rows as [|rr rows IH]; simpl; [reflexivity|]. exact IH.
Qed.

Lemma stages_rows_events (rows : list RowResult) :
  Forall (eq StQuery) (stages (rows_events rows)).
Proof.
  induction rows as [|rr rows IH]; simpl; [constructor|].
  repeat constructor. exact IH.
Qed.

(* ================================================================== *)
(** ** C2: the outcome of [ingestData] *)

(** C2.  [ingestData] always returns (it does not panic).  It returns
    nil exactly when the outside reports no failure: the client was
    constructed, the submission was accepted and the status that
    arrived is nil; in that case the status was waited for before the
    return.  If the outside reports a failure [cause] at any of the three
    points, [ingestData] returns an error that wraps [cause] and whose
    text ends with the text of [cause]. *)
Theorem ingestData_fails_iff_pipeline_fails
  (kcsb : option ConnectionStringBuilder) (w : World) :
  exists r : option error,
    completion_of (ingestData kcsb) w = Returns r
    /\ (r = None <-> ingest_failure kcsb w = None)
    /\ (r = None ->
        exists status, In (EvStatusWait status) (trace_of (ingestData kcsb) w)
                       /\ Result_Wait status = None)
    /\ (forall cause, ingest_failure kcsb w = Some cause ->
        exists e prefix, r = Some e /\ Unwrap e = Some cause
                         /\ Error e = prefix +++ Error cause).
Proof.
  unfold completion_of, trace_of, ingest_failure. rewrite ingestData_run.
  destruct (azkustoingest_New w kcsb ingestor_options) as [ingestor|err].
  - cbv zeta.
    destruct (ingestor_FromFile w ingestor "./ingest.kql" ingestOptions)
      as [status|err].
    + destruct (Result_Wait status) as [e|] eqn:Hwait; simpl.
      * eexists; split; [reflexivity|]. split; [split; discriminate|].
        split; [discriminate|].
        intros cause [= <-]. do 2 eexists. repeat split.
      * eexists; split; [reflexivity|]. split; [tauto|]. split.
        -- intros _. exists status. split; [|exact Hwait].
           unfold ingest_prefix. simpl. tauto.
        -- discriminate.
    + simpl. eexists; split; [reflexivity|]. split; [split; discriminate|].
      split; [discriminate|].
      intros cause [= <-]. do 2 eexists. repeat split.
  - simpl. eexists; split; [reflexivity|]. split; [split; discriminate|].
    split; [discriminate|].
    intros cause [= <-]. do 2 eexists. repeat split.
Qed.

(* ================================================================== *)
(** ** C5: the deferred closes *)

(** C5.  In [ingestData], once [azkustoingest.New] has returned a
    client, that client is closed exactly once and the close is the last
    thing the call does, whether the call returns nil or an error; if no
    client was returned nothing is closed.  In [getData] the same holds
    for the dataset returned by [IterativeQuery], on every way out: the
    two error returns, the row-error return, the normal return and the
    nil-dereference panic on an empty tables channel. *)
Theorem scoped_handles_closed_exactly_once
  (kcsb : option ConnectionStringBuilder) (client : option Client) (w : World) :
  match azkustoingest_New w kcsb ingestor_options with
  | inl ingestor =>
      closed_ingestors (trace_of (ingestData kcsb) w) = [ingestor]
      /\ exists t, trace_of (ingestData kcsb) w = t ++ [EvIngestorClose ingestor]
  | inr _ => closed_ingestors (trace_of (ingestData kcsb) w) = []
  end
  /\ match client_IterativeQuery w client "ArcSqlTelemetry"
             "ravpateTable | order by Timestamp desc | take 5" with
     | inl dataset =>
         closed_datasets (trace_of (getData client) w) = [dataset]
         /\ exists t, trace_of (getData client) w = t ++ [EvDatasetClose dataset]
     | inr _ => closed_datasets (trace_of (getData client) w) = []
     end.
Proof.
  unfold trace_of. rewrite ingestData_run, getData_run. split.
  - destruct (azkustoingest_New w kcsb ingestor_options) as [ingestor|err];
      [|reflexivity].
    cbv zeta.
    destruct (ingestor_FromFile w ingestor "./ingest.kql" ingestOptions)
      as [status|err]; simpl.
    + split; [reflexivity|].
      exists (ingest_prefix kcsb ingestor (time_Now_UTC w) ++ [EvStatusWait status]).
      now rewrite <- app_assoc.
    + split; [reflexivity|].
      exists (ingest_prefix kcsb ingestor (time_Now_UTC w)). reflexivity.
  - destruct (client_IterativeQuery w client _ _) as [dataset|err];
      [|reflexivity].
    cbv zeta.
    destruct (hd_error (Dataset_Tables dataset)) as [primaryResult|]; simpl.
    + destruct (TableResult_Err primaryResult); simpl.
      * split; [reflexivity|].
        exists (query_prefix client dataset). reflexivity.
      * split.
        -- rewrite range_Rows_run. unfold closed_datasets.
           destruct (first_bad (TableResult_Rows primaryResult)) as [[rr e]|];
             simpl; rewrite !filter_map_app;
             fold closed_datasets; rewrite closed_datasets_rows_events;
             reflexivity.
        -- exists (query_prefix client dataset ++ [EvLog "Results:"; EvLog ""]
                     ++ fst (range_Rows (TableResult_Rows primaryResult) w)).
           rewrite range_Rows_run. reflexivity.
    + split; [reflexivity|].
      exists (query_prefix client dataset). reflexivity.
Qed.

(* ================================================================== *)
(** ** C6: the options of the submission *)

(** C6.  [ingestData] submits at most once; when the ingestion client
    exists it submits exactly once, the path "./ingest.kql", with the
    option list delete-source, flush-immediately, report-result-to-table
    and nothing else. *)
Theorem ingestData_submission_options
  (kcsb : option ConnectionStringBuilder) (w : World) :
  submissions (trace_of (ingestData kcsb) w) =
  match azkustoingest_New w kcsb ingestor_options with
  | inl ingestor =>
      [(ingestor, "./ingest.kql",
        [DeleteSource; FlushImmediately; ReportResultToTable])]
  | inr _ => []
  end.
Proof.
  unfold trace_of. rewrite ingestData_run.
  destruct (azkustoingest_New w kcsb ingestor_options) as [ingestor|err];
    [|reflexivity].
  cbv zeta.
  destruct (ingestor_FromFile w ingestor "./ingest.kql" ingestOptions);
    reflexivity.
Qed.

(* ================================================================== *)
(** ** C9: the result of [os.WriteFile] *)

(** C9.  Whatever [os.WriteFile] answers, [ingestData] runs the same:
    with the write failing with [err] the trace and the result are those
    of the run in which the write succeeds.  When the ingestion client
    exists, the write of "ingest.kql" is followed by the log line and
    then by the submission of "./ingest.kql". *)
Theorem ingestData_ignores_WriteFile_error
  (kcsb : option ConnectionStringBuilder) (w : World) (err : error)
  (ingestor : Ingestion) :
  azkustoingest_New w kcsb ingestor_options = inl ingestor ->
  os_WriteFile (set_WriteFile w (Some err)) "ingest.kql"
               (ingestQuery (time_Now_UTC w)) 420 = Some err
  /\ ingestData kcsb (set_WriteFile w (Some err))
     = ingestData kcsb (set_WriteFile w None)
  /\ exists t1 t2,
       trace_of (ingestData kcsb) (set_WriteFile w (Some err))
       = t1 ++ [EvWriteFile "ingest.kql" (ingestQuery (time_Now_UTC w)) 420;
                EvLog "Running ingest query now...";
                EvFromFile ingestor "./ingest.kql" ingestOptions] ++ t2.
Proof.
  intros Hnew. split; [reflexivity|]. split.
  - rewrite !ingestData_run. reflexivity.
  - unfold trace_of. rewrite ingestData_run. simpl. rewrite Hnew. cbv zeta.
    destruct (ingestor_FromFile w ingestor "./ingest.kql" ingestOptions)
      as [status|e]; simpl.
    + eexists [_; _; _; _], [_; _]. reflexivity.
    + eexists [_; _; _; _], [_]. reflexivity.
Qed.

Lemma ingestData_ignores_WriteFile_error_witness :
  azkustoingest_New (Sample.happy []) None ingestor_options = inl (IngestionH 3)
  /\ ingestData None
       (set_WriteFile (Sample.happy []) (Some (ErrorString "disk full")))
     = ingestData None (set_WriteFile (Sample.happy []) None).
Proof.
  assert (H : azkustoingest_New (Sample.happy []) None ingestor_options
              = inl (IngestionH 3)) by reflexivity.
  split; [exact H|].
  exact (proj1 (proj2 (ingestData_ignores_WriteFile_error None (Sample.happy [])
                         (ErrorString "disk full") (IngestionH 3) H))).
Defined.

(* ================================================================== *)
(** ** C4: a row that carries an error *)

(** C4.  Let the primary table deliver the row results
    [pre ++ rr :: post], where no row of [pre] carries an error and [rr]
    carries the error [e].  Then [getData] returns an error that wraps
    [e]; the row results it took off the channel are those of [pre] and
    then [rr], so none of [post]; and the rows it printed are the rows of
    [pre], in the order delivered. *)
Theorem getData_stops_at_first_row_error
  (client : option Client) (w : World) (dataset : Dataset)
  (primaryResult : TableResult) (more : list TableResult)
  (pre post : list RowResult) (rr : RowResult) (e : error) :
  client_IterativeQuery w client "ArcSqlTelemetry"
    "ravpateTable | order by Timestamp desc | take 5" = inl dataset ->
  Dataset_Tables dataset = primaryResult :: more ->
  TableResult_Err primaryResult = None ->
  TableResult_Rows primaryResult = pre ++ rr :: post ->
  Forall (fun r => RowResult_Err r = None) pre ->
  RowResult_Err rr = Some e ->
  completion_of (getData client) w
  = Returns (Some (Errorf_w "error getting row result: " e))
  /\ Unwrap (Errorf_w "error getting row result: " e) = Some e
  /\ received_rows (trace_of (getData client) w) = pre ++ [rr]
  /\ logged_rows (trace_of (getData client) w) = map RowResult_Row pre.
Proof.
  intros Hq Htables Herr Hrows Hpre Hrr.
  destruct (clean_prefix_app pre post rr e Hpre Hrr) as [Hclean Hbad].
  unfold completion_of, trace_of. rewrite getData_run, Hq. cbv zeta.
  rewrite Htables. simpl hd_error. cbv iota. rewrite Herr, Hrows.
  rewrite range_Rows_run, Hbad, Hclean. simpl fst. simpl snd.
  split; [reflexivity|]. split; [reflexivity|].
  unfold received_rows, logged_rows. cbn [filter_map].
  rewrite !filter_map_app.
  fold received_rows. fold logged_rows.
  rewrite received_rows_events, logged_rows_events.
  split; simpl; [now rewrite app_nil_r | now rewrite !app_nil_r].
Qed.

Lemma getData_stops_at_first_row_error_witness :
  let w := Sample.happy Sample.three_rows in
  let first := Sample.row "2024-01-01T00:00:00Z" in
  received_rows (trace_of (getData None) w) = [first; Sample.bad_row]
  /\ logged_rows (trace_of (getData None) w) = [RowResult_Row first].
Proof.
  cbv zeta.
  pose proof (getData_stops_at_first_row_error None
    (Sample.happy Sample.three_rows) (Sample.dataset Sample.three_rows)
    (Sample.table Sample.three_rows) []
    [Sample.row "2024-01-01T00:00:00Z"] [Sample.row "2023-12-31T00:00:00Z"]
    Sample.bad_row (ErrorString "row decode")
    eq_refl eq_refl eq_refl eq_refl
    (Forall_cons (Sample.row "2024-01-01T00:00:00Z") eq_refl (Forall_nil _))
    eq_refl) as (_ & _ & Hrecv & Hlog).
  split; [exact Hrecv | exact Hlog].
Defined.

(* ================================================================== *)
(** ** C1: the staged payload *)

Lemma count_char_append (c : ascii) (s1 s2 : string) :
  count_char c (s1 +++ s2) = (count_char c s1 + count_char c s2)%nat.
Proof.
  induction s1 as [|a s1 IH]; simpl; [reflexivity|].
  rewrite IH. lia.
Qed.

Lemma count_comma_zeros (n : nat) : count_char "," (zeros n) = 0%nat.
Proof. induction n as [|n IH]; simpl; [reflexivity | exact IH]. Qed.

Lemma count_comma_digits (d : Decimal.uint) :
  count_char "," (NilEmpty.string_of_uint d) = 0%nat.
Proof. induction d; simpl; auto. Qed.

Lemma count_comma_appendInt (x : Z) (width : nat) :
  count_char "," (appendInt x width) = 0%nat.
Proof.
  unfold appendInt, zero_pad.
  rewrite !count_char_append, count_comma_zeros, count_comma_digits.
  destruct (x <? 0); reflexivity.
Qed.

(** A time printed in the RFC3339 layout has no comma in it. *)
Lemma count_comma_Format_RFC3339 (t : Time) :
  count_char "," (Format_RFC3339 t) = 0%nat.
Proof.
  unfold Format_RFC3339.
  rewrite !count_char_append, !count_comma_appendInt. reflexivity.
Qed.

Lemma split_on_no_sep (sep : ascii) (s : string) :
  count_char sep s = 0%nat -> split_on sep s = [s].
Proof.
  induction s as [|c s IH]; simpl; [reflexivity|].
  destruct (Ascii.eqb c sep); [discriminate|].
  intros H. now rewrite (IH H).
Qed.

Lemma split_on_first (sep : ascii) (s rest : string) :
  count_char sep s = 0%nat ->
  split_on sep (s +++ String sep rest) = s :: split_on sep rest.
Proof.
  induction s as [|c s IH]; simpl.
  - now rewrite Ascii.eqb_refl.
  - destruct (Ascii.eqb c sep); [discriminate|].
    intros H. now rewrite (IH H).
Qed.

(** C1 (amended).  When the ingestion client exists, [ingestData] writes
    one file, "ingest.kql", whose content is the command text
    [.ingest inline into table ravpateTable <| ] followed by three
    comma-separated values: the current UTC time in the RFC3339 layout,
    then [Sql], then [Isgood].  Split at the commas, that row has exactly
    these three values, the timestamp first. *)
Theorem ingestData_stages_three_values
  (kcsb : option ConnectionStringBuilder) (w : World) (ingestor : Ingestion) :
  azkustoingest_New w kcsb ingestor_options = inl ingestor ->
  let ts := Format_RFC3339 (time_Now_UTC w) in
  files_written (trace_of (ingestData kcsb) w)
  = [("ingest.kql", inline_header +++ String.concat "," [ts; "Sql"; "Isgood"])]
  /\ split_on "," (String.concat "," [ts; "Sql"; "Isgood"]) = [ts; "Sql"; "Isgood"].
Proof.
  intros Hnew ts. split.
  - unfold trace_of. rewrite ingestData_run, Hnew. cbv zeta.
    destruct (ingestor_FromFile w ingestor "./ingest.kql" ingestOptions);
      reflexivity.
  - assert (Hts : count_char "," ts = 0%nat)
      by apply count_comma_Format_RFC3339.
    change (String.concat "," [ts; "Sql"; "Isgood"])
      with (ts +++ String "," ("Sql" +++ String "," "Isgood")).
    rewrite (split_on_first _ _ _ Hts).
    rewrite (split_on_first "," "Sql" "Isgood" eq_refl).
    reflexivity.
Qed.

Lemma ingestData_stages_three_values_witness :
  azkustoingest_New (Sample.happy []) None ingestor_options = inl (IngestionH 3)
  /\ files_written (trace_of (ingestData None) (Sample.happy []))
     = [("ingest.kql",
         ".ingest inline into table ravpateTable <| 2024-01-01T00:00:00Z,Sql,Isgood")].
Proof.
  assert (H : azkustoingest_New (Sample.happy []) None ingestor_options
              = inl (IngestionH 3)) by reflexivity.
  split; [exact H|].
  exact (proj1 (ingestData_stages_three_values None (Sample.happy [])
                  (IngestionH 3) H)).
Defined.

(** C1 as the specification words it fails.  In the sample world the
    file written holds the three values [2024-01-01T00:00:00Z], [Sql],
    [Isgood]; it is no four-field payload [timestamp, firstName,
    secondName, flag], whatever the record, whatever text stands for the
    flag and whatever text precedes the row. *)
Lemma staged_payload_is_not_four_fields :
  let payload :=
    ".ingest inline into table ravpateTable <| 2024-01-01T00:00:00Z,Sql,Isgood" in
  files_written (trace_of (ingestData None) (Sample.happy []))
  = [("ingest.kql", payload)]
  /\ ~ (exists (show : bool -> string) (r : TelemetryRecord) (header : string),
          payload = header +++ four_field_payload show r).
Proof.
  cbv zeta. split; [vm_compute; reflexivity|].
  intros (show & r & header & H).
  apply (f_equal (count_char ",")) in H.
  unfold four_field_payload in H.
  change (String.concat "," [timestamp r; firstName r; secondName r; show (flag r)])
    with (timestamp r +++ "," +++ firstName r +++ "," +++ secondName r
          +++ "," +++ show (flag r)) in H.
  rewrite !count_char_append in H.
  change (count_char "," ",") with 1%nat in H.
  match type of H with ?lhs = _ => change lhs with 2%nat in H end.
  lia.
Qed.

(* ================================================================== *)
(** ** How [main] runs *)

Arguments getKustoConnStr : simpl never.
Arguments getKustoClient : simpl never.
Arguments ingestData : simpl never.
Arguments getData : simpl never.

(** The run of [main], by how its four stages end. *)
Lemma main_run (w : World) :
  main w =
  let hd := EvLog "Auth type:  BearerToken" in
  let (t1, c1) := getKustoConnStr BearerToken w in
  match c1 with
  | Panics v => (hd :: t1, Panics v)
  | Returns (kcsb, Some e) => (hd :: t1, Panics (PanicError e))
  | Returns (kcsb, None) =>
  let (t2, c2) := getKustoClient kcsb w in
  match c2 with
  | Panics v => (hd :: t1 ++ t2, Panics v)
  | Returns (client, Some e) => (hd :: t1 ++ t2, Panics (PanicError e))
  | Returns (client, None) =>
  let (t3, c3) := ingestData kcsb w in
  let upto3 := hd :: t1 ++ t2 ++ EvLog "Ingesting data..." :: t3 in
  match c3 with
  | Panics v => (upto3 ++ [EvClientClose client], Panics v)
  | Returns (Some e) => (upto3 ++ [EvClientClose client], Panics (PanicError e))
  | Returns None =>
  let (t4, c4) := getData client w in
  let upto4 := upto3 ++ EvLog "Getting data..." :: t4 in
  match c4 with
  | Panics v => (upto4 ++ [EvClientClose client], Panics v)
  | Returns (Some e) => (upto4 ++ [EvClientClose client], Panics (PanicError e))
  | Returns None => (upto4 ++ [EvLog "Done."; EvClientClose client], Returns tt)
  end end end end.
Proof.
  unfold main, log_Println, client_Close. go_unfold. simpl.
  destruct (getKustoConnStr BearerToken w) as [t1 [[kcsb [e1|]]|v1]]; simpl;
    [now rewrite app_nil_r| |reflexivity].
  destruct (getKustoClient kcsb w) as [t2 [[client [e2|]]|v2]]; simpl;
    [now rewrite app_nil_r| |reflexivity].
  destruct (ingestData kcsb w) as [t3 [[e3|]|v3]]; simpl;
    [ | |]; try (repeat (rewrite <- app_assoc; simpl); reflexivity).
  destruct (getData client w) as [t4 [[e4|]|v4]]; simpl;
    rewrite ?app_nil_r; repeat (rewrite <- app_assoc; simpl); reflexivity.
Qed.

(** Each stage makes outside calls of its own kind only. *)
Lemma stages_getKustoConnStr (a : AuthType) (w : World) :
  Forall (eq StBuild) (stages (fst (getKustoConnStr a w))).
Proof.
  unfold getKustoConnStr, getAzBearerToken, NewDeviceCodeCredential, GetToken.
  go_unfold.
  destruct (a =? BearerToken); [|destruct (a =? Interactive); constructor].
  simpl.
  destruct (azidentity_NewDeviceCodeCredential w) as [cred|err]; simpl.
  - destruct (cred_GetToken w cred _); simpl; repeat constructor.
  - repeat constructor.
Qed.

Lemma stages_getKustoClient (kcsb : option ConnectionStringBuilder) (w : World) :
  stages (fst (getKustoClient kcsb w)) = [StClients].
Proof.
  unfold getKustoClient, azkustodata_New_call. go_unfold. simpl.
  destruct (azkustodata_New w kcsb); reflexivity.
Qed.

Lemma stages_ingestData (kcsb : option ConnectionStringBuilder) (w : World) :
  Forall (eq StIngest) (stages (fst (ingestData kcsb w))).
Proof.
  rewrite ingestData_run.
  destruct (azkustoingest_New w kcsb ingestor_options) as [ingestor|err];
    [|repeat constructor].
  cbv zeta.
  destruct (ingestor_FromFile w ingestor "./ingest.kql" ingestOptions);
    simpl; repeat constructor.
Qed.

Lemma stages_range_Rows (rows : list RowResult) (w : World) :
  Forall (eq StQuery) (stages (fst (range_Rows rows w))).
Proof.
  rewrite range_Rows_run.
  destruct (first_bad rows) as [[rr e]|]; simpl.
  - unfold stages. rewrite filter_map_app. apply Forall_app. split.
    + apply stages_rows_events.
    + repeat constructor.
  - apply stages_rows_events.
Qed.

Lemma stages_getData (client : option Client) (w : World) :
  Forall (eq StQuery) (stages (fst (getData client w))).
Proof.
  rewrite getData_run.
  destruct (client_IterativeQuery w client _ _) as [dataset|err];
    [|repeat constructor].
  cbv zeta.
  destruct (hd_error (Dataset_Tables dataset)) as [primaryResult|];
    [|repeat constructor].
  destruct (TableResult_Err primaryResult); [repeat constructor|].
  cbn [fst]. unfold stages, query_prefix.
  rewrite !filter_map_app. cbn [filter_map stage_of app].
  repeat (apply Forall_cons; [reflexivity|]).
  apply Forall_app. split.
  - apply stages_range_Rows.
  - repeat constructor.
Qed.

(** Blocks of equal stages, laid out in stage order, are sorted. *)
Lemma sorted_block (s : Stage) (l rest : list Stage) :
  Forall (eq s) l ->
  StronglySorted stage_le rest ->
  Forall (stage_le s) rest ->
  StronglySorted stage_le (l ++ rest).
Proof.
  intros Hl Hsorted Hle. induction Hl as [|x l <- Hl IH]; simpl; [assumption|].
  constructor; [exact IH|].
  apply Forall_app. split; [|exact Hle].
  eapply Forall_impl; [|exact Hl]. intros y <-. unfold stage_le. lia.
Qed.

Lemma block_bounds (s s' : Stage) (l : list Stage) :
  Forall (eq s) l ->
  ((stage_index s' <= stage_index s)%nat -> Forall (stage_le s') l)
  /\ ((stage_index s <= stage_index s')%nat -> Forall (fun x => stage_le x s') l).
Proof.
  intros Hl. split; intros Hle;
    (eapply Forall_impl; [|exact Hl]); intros y <-; exact Hle.
Qed.

Lemma blocks_sorted (b c i q : list Stage) :
  Forall (eq StBuild) b -> Forall (eq StClients) c ->
  Forall (eq StIngest) i -> Forall (eq StQuery) q ->
  StronglySorted stage_le (b ++ c ++ i ++ q).
Proof.
  intros Hb Hc Hi Hq.
  apply (sorted_block StBuild); [assumption| |].
  - apply (sorted_block StClients); [assumption| |].
    + apply (sorted_block StIngest); [assumption| |].
      * rewrite <- (app_nil_r q).
        apply (sorted_block StQuery); [assumption|constructor|constructor].
      * apply (block_bounds StQuery StIngest q Hq). simpl. lia.
    + apply Forall_app. split.
      * apply (block_bounds StIngest StClients i Hi). simpl. lia.
      * apply (block_bounds StQuery StClients q Hq). simpl. lia.
  - repeat (apply Forall_app; split).
    + apply (block_bounds StClients StBuild c Hc). simpl. lia.
    + apply (block_bounds StIngest StBuild i Hi). simpl. lia.
    + apply (block_bounds StQuery StBuild q Hq). simpl. lia.
Qed.


Lemma stages_app (t1 t2 : Trace) : stages (t1 ++ t2) = stages t1 ++ stages t2.
Proof. apply filter_map_app. Qed.

Lemma stages_cons (ev : Event) (t : Trace) :
  stages (ev :: t)
  = match stage_of ev with Some s => s :: stages t | None => stages t end.
Proof. reflexivity. Qed.

Ltac stage_clash :=
  repeat match goal with
  | |- _ /\ _ => split
  | |- forall _, stage_error _ _ _ -> _ =>
      let e := fresh "e" in let H := fresh "H" in
      intros e H; inversion H; subst; unfold completion_of in *
  | H : snd ?x = _, E : ?x = _ |- _ => rewrite E in H; simpl in H
  | H : Returns _ = Returns _ |- _ => injection H as H; subst
  | H : (_, _) = (_, _) |- _ => injection H; intros; subst; clear H
  | H : ?x <> ?x |- _ => now destruct H
  end; try discriminate; try congruence; try reflexivity; eauto.

Ltac stages_norm :=
  repeat (rewrite ?stages_app, ?stages_cons; cbn [stage_of]);
  change (stages []) with (@nil Stage); rewrite ?app_nil_r;
  repeat rewrite <- app_assoc.

Lemma main_stage_blocks (w : World) :
  exists b c i q,
    stages (trace_of main w) = b ++ c ++ i ++ q
    /\ Forall (eq StBuild) b /\ Forall (eq StClients) c
    /\ Forall (eq StIngest) i /\ Forall (eq StQuery) q
    /\ (forall e, stage_error w StBuild e -> c = [] /\ i = [] /\ q = [])
    /\ (forall e, stage_error w StClients e -> i = [] /\ q = [])
    /\ (forall e, stage_error w StIngest e -> q = [])
    /\ (q <> [] ->
        exists kcsb client,
          completion_of (getKustoConnStr BearerToken) w = Returns (kcsb, None)
          /\ completion_of (getKustoClient kcsb) w = Returns (client, None)
          /\ completion_of (ingestData kcsb) w = Returns None).
Proof.
  unfold trace_of. rewrite main_run. cbv zeta.
  pose proof (stages_getKustoConnStr BearerToken w) as Hb.
  destruct (getKustoConnStr BearerToken w) as [t1 [[kcsb [e1|]]|v1]] eqn:E1;
    simpl in Hb.
  2: pose proof (stages_getKustoClient kcsb w) as Hc;
     destruct (getKustoClient kcsb w) as [t2 [[client [e2|]]|v2]] eqn:E2;
     simpl in Hc.
  3: pose proof (stages_ingestData kcsb w) as Hi;
     destruct (ingestData kcsb w) as [t3 [[e3|]|v3]] eqn:E3; simpl in Hi.
  4: pose proof (stages_getData client w) as Hq;
     destruct (getData client w) as [t4 [[e4|]|v4]] eqn:E4; simpl in Hq.
  all: cbn [fst snd]; stages_norm.
  1, 9: exists (stages t1), [], [], []; rewrite ?app_nil_r;
    split; [reflexivity|]; stage_clash.
  1, 7: exists (stages t1), (stages t2), [], []; rewrite ?app_nil_r;
    split; [reflexivity|]; rewrite Hc; stage_clash; repeat constructor.
  1, 5: exists (stages t1), (stages t2), (stages t3), []; rewrite ?app_nil_r;
    split; [reflexivity|]; rewrite Hc; stage_clash; repeat constructor.
  all: exists (stages t1), (stages t2), (stages t3), (stages t4).
  all: split; [reflexivity|]; rewrite Hc; stage_clash; repeat constructor.
  all: intros _; exists kcsb, client; unfold completion_of;
    rewrite E1, E2, E3; repeat split.
Qed.

(** A stage's error becomes [main]'s panic. *)
Lemma main_panics_with_stage_error (w : World) (s : Stage) (e : error) :
  stage_error w s e -> completion_of main w = Panics (PanicError e).
Proof.
  intros H. unfold completion_of in *. rewrite main_run. cbv zeta.
  inversion H as [kcsb e' H1|kcsb client e' H1 H2|kcsb client e' H1 H2 H3
                 |kcsb client e' H1 H2 H3 H4]; subst; unfold completion_of in *.
  all: destruct (getKustoConnStr BearerToken w) as [t1 c1];
    cbn [snd] in H1; subst c1; try reflexivity.
  all: destruct (getKustoClient kcsb w) as [t2 c2];
    cbn [snd] in H2; subst c2; try reflexivity.
  all: destruct (ingestData kcsb w) as [t3 c3];
    cbn [snd] in H3; subst c3; try reflexivity.
  destruct (getData client w) as [t4 c4]; cbn [snd] in H4; subst c4.
  reflexivity.
Qed.

(** The trace of [main], stage by stage. *)
Lemma main_trace (w : World) :
  fst (main w) =
  EvLog "Auth type:  BearerToken" :: fst (getKustoConnStr BearerToken w) ++
  match snd (getKustoConnStr BearerToken w) with
  | Returns (kcsb, None) =>
      fst (getKustoClient kcsb w) ++
      match snd (getKustoClient kcsb w) with
      | Returns (client, None) =>
          EvLog "Ingesting data..." :: fst (ingestData kcsb w) ++
          match snd (ingestData kcsb w) with
          | Returns None =>
              EvLog "Getting data..." :: fst (getData client w) ++
              match snd (getData client w) with
              | Returns None => [EvLog "Done."]
              | _ => []
              end
          | _ => []
          end ++ [EvClientClose client]
      | _ => []
      end
  | _ => []
  end.
Proof.
  rewrite main_run. cbv zeta.
  destruct (getKustoConnStr BearerToken w) as [t1 [[kcsb [e1|]]|v1]];
    cbn [fst snd]; rewrite ?app_nil_r; try reflexivity.
  destruct (getKustoClient kcsb w) as [t2 [[client [e2|]]|v2]];
    cbn [fst snd]; rewrite ?app_nil_r; try reflexivity.
  destruct (ingestData kcsb w) as [t3 [[e3|]|v3]];
    cbn [fst snd app]; repeat (rewrite <- ?app_assoc; cbn [app]);
    try reflexivity.
  destruct (getData client w) as [t4 [[e4|]|v4]];
    cbn [fst snd app]; repeat (rewrite <- ?app_assoc; cbn [app]);
    rewrite ?app_nil_r; reflexivity.
Qed.

(** How [main] ends, stage by stage. *)
Lemma main_completion (w : World) :
  snd (main w) =
  match snd (getKustoConnStr BearerToken w) with
  | Panics v => Panics v
  | Returns (_, Some e) => Panics (PanicError e)
  | Returns (kcsb, None) =>
      match snd (getKustoClient kcsb w) with
      | Panics v => Panics v
      | Returns (_, Some e) => Panics (PanicError e)
      | Returns (client, None) =>
          match snd (ingestData kcsb w) with
          | Panics v => Panics v
          | Returns (Some e) => Panics (PanicError e)
          | Returns None =>
              match snd (getData client w) with
              | Panics v => Panics v
              | Returns (Some e) => Panics (PanicError e)
              | Returns None => Returns tt
              end
          end
      end
  end.
Proof.
  rewrite main_run. cbv zeta.
  destruct (getKustoConnStr BearerToken w) as [t1 [[kcsb [e1|]]|v1]];
    cbn [fst snd]; try reflexivity.
  destruct (getKustoClient kcsb w) as [t2 [[client [e2|]]|v2]];
    cbn [fst snd]; try reflexivity.
  destruct (ingestData kcsb w) as [t3 [[e3|]|v3]];
    cbn [fst snd]; try reflexivity.
  destruct (getData client w) as [t4 [[e4|]|v4]]; reflexivity.
Qed.

(* ================================================================== *)
(** ** C3: the orchestrator *)

(** C3.  In every run of [main] the outside calls appear in stage order:
    those of [getKustoConnStr], then those of [getKustoClient], then
    those of [ingestData], then those of [getData].  If a stage returns
    an error, [main] panics with exactly that error and no call of a
    later stage is made.  A call of the query stage is made only if
    [ingestData] returned nil (after the two stages before it returned
    without error).

    The run is moreover pinned down call by call.  Its trace is the
    first log line, then the calls of [getKustoConnStr], run once; only
    if that returned a nil error, the calls of [getKustoClient], run
    once; only if that returned a nil error, the log line and the calls
    of [ingestData], run once; only if that returned nil, the log line
    and the calls of [getData], run once; only if that returned nil, the
    line "Done.".  After a stage that did not return a nil error nothing
    follows but the deferred close of the client, if the client exists:
    no stage is run again and no later stage is started.  [main] ends
    with the panic of the first stage that failed, and returns only if
    all four returned nil. *)
Theorem main_stages_in_order_fail_fast (w : World) :
  let t := trace_of main w in
  StronglySorted stage_le (stages t)
  /\ (forall s e, stage_error w s e ->
        completion_of main w = Panics (PanicError e)
        /\ Forall (fun s' => stage_le s' s) (stages t))
  /\ (In StQuery (stages t) ->
        exists kcsb client,
          completion_of (getKustoConnStr BearerToken) w = Returns (kcsb, None)
          /\ completion_of (getKustoClient kcsb) w = Returns (client, None)
          /\ completion_of (ingestData kcsb) w = Returns None)
  /\ t =
     EvLog "Auth type:  BearerToken"
     :: trace_of (getKustoConnStr BearerToken) w ++
     match completion_of (getKustoConnStr BearerToken) w with
     | Returns (kcsb, None) =>
         trace_of (getKustoClient kcsb) w ++
         match completion_of (getKustoClient kcsb) w with
         | Returns (client, None) =>
             EvLog "Ingesting data..." :: trace_of (ingestData kcsb) w ++
             match completion_of (ingestData kcsb) w with
             | Returns None =>
                 EvLog "Getting data..." :: trace_of (getData client) w ++
                 match completion_of (getData client) w with
                 | Returns None => [EvLog "Done."]
                 | _ => []
                 end
             | _ => []
             end ++ [EvClientClose client]
         | _ => []
         end
     | _ => []
     end
  /\ completion_of main w =
     match completion_of (getKustoConnStr BearerToken) w with
     | Panics v => Panics v
     | Returns (_, Some e) => Panics (PanicError e)
     | Returns (kcsb, None) =>
         match completion_of (getKustoClient kcsb) w with
         | Panics v => Panics v
         | Returns (_, Some e) => Panics (PanicError e)
         | Returns (client, None) =>
             match completion_of (ingestData kcsb) w with
             | Panics v => Panics v
             | Returns (Some e) => Panics (PanicError e)
             | Returns None =>
                 match completion_of (getData client) w with
                 | Panics v => Panics v
                 | Returns (Some e) => Panics (PanicError e)
                 | Returns None => Returns tt
                 end
             end
         end
     end.
Proof.
  cbv zeta.
  assert (Htrace := main_trace w). assert (Hend := main_completion w).
  fold (trace_of main w) in Htrace. fold (completion_of main w) in Hend.
  refine ((fun H => conj (proj1 H) (conj (proj1 (proj2 H))
            (conj (proj2 (proj2 H)) (conj Htrace Hend)))) _).
  clear Htrace Hend.
  destruct (main_stage_blocks w)
    as (b & c & i & q & -> & Hb & Hc & Hi & Hq & Eb & Ec & Ei & Eq).
  split; [now apply blocks_sorted|]. split.
  - intros s e Herr. split; [exact (main_panics_with_stage_error w s e Herr)|].
    destruct s.
    + destruct (Eb e Herr) as (-> & -> & ->). rewrite !app_nil_r.
      now apply (block_bounds StBuild StBuild b Hb).
    + destruct (Ec e Herr) as (-> & ->). rewrite !app_nil_r.
      apply Forall_app. split.
      * apply (block_bounds StBuild StClients b Hb). simpl. lia.
      * now apply (block_bounds StClients StClients c Hc).
    + rewrite (Ei e Herr), !app_nil_r.
      repeat (apply Forall_app; split).
      * apply (block_bounds StBuild StIngest b Hb). simpl. lia.
      * apply (block_bounds StClients StIngest c Hc). simpl. lia.
      * now apply (block_bounds StIngest StIngest i Hi).
    + apply Forall_forall. intros [] _; unfold stage_le; simpl; lia.
  - intros Hin. apply Eq. intros ->. rewrite app_nil_r in Hin.
    rewrite !in_app_iff in Hin.
    destruct Hin as [Hin|[Hin|Hin]];
      [ pose proof (proj1 (Forall_forall _ _) Hb _ Hin)
      | pose proof (proj1 (Forall_forall _ _) Hc _ Hin)
      | pose proof (proj1 (Forall_forall _ _) Hi _ Hin) ]; discriminate.
Qed.

(** In the sample world whose submission is rejected, the ingest stage
    fails, [main] panics with its error and no query is made. *)
Lemma main_stages_in_order_fail_fast_witness :
  let w := Sample.with_FromFile (Sample.happy []) (inr (ErrorString "rejected")) in
  let e := WrapError "error ingesting data: rejected" (ErrorString "rejected") in
  stage_error w StIngest e
  /\ completion_of main w = Panics (PanicError e)
  /\ Forall (fun s => stage_le s StIngest) (stages (trace_of main w)).
Proof.
  cbv zeta.
  assert (H : stage_error
                (Sample.with_FromFile (Sample.happy [])
                   (inr (ErrorString "rejected")))
                StIngest
                (WrapError "error ingesting data: rejected"
                   (ErrorString "rejected")))
    by (eapply ingest_error; reflexivity).
  split; [exact H|].
  exact (proj1 (proj2 (main_stages_in_order_fail_fast _)) StIngest _ H).
Defined.

Example main_rejected_submission_stages :
  stages (trace_of main
            (Sample.with_FromFile (Sample.happy [])
               (inr (ErrorString "rejected"))))
  = [StBuild; StBuild; StClients;
     StIngest; StIngest; StIngest; StIngest; StIngest].
Proof. vm_compute. reflexivity. Qed.

(** In the sample world where everything succeeds, all four stages run. *)
Example main_happy :
  completion_of main (Sample.happy [Sample.row "2024-01-01T00:00:00Z"])
  = Returns tt
  /\ logged_rows (trace_of main (Sample.happy [Sample.row "2024-01-01T00:00:00Z"]))
     = [["2024-01-01T00:00:00Z"; "Sql"; "Isgood"]].
Proof. split; vm_compute; reflexivity. Qed.

(* ================================================================== *)
(** * Further properties of the program *)

(** ** How the two small stages run *)

(** The run of [getKustoConnStr] in bearer-token mode. *)
Lemma getKustoConnStr_BearerToken_run (w : World) :
  getKustoConnStr BearerToken w =
  match azidentity_NewDeviceCodeCredential w with
  | inr err =>
      ([EvNewDeviceCodeCredential],
       Returns (None, Some (Errorf_v "failed to obtain a credential: " err)))
  | inl cred =>
      ([EvNewDeviceCodeCredential; EvGetToken cred [KustoURL +++ "/.default"]],
       match cred_GetToken w cred [KustoURL +++ "/.default"] with
       | inr err =>
           Returns (None, Some (Errorf_v "failed to get a token: " err))
       | inl token => Returns (Some (bearer_descriptor token), None)
       end)
  end.
Proof.
  unfold getKustoConnStr, getAzBearerToken, NewDeviceCodeCredential, GetToken.
  go_unfold. simpl.
  destruct (azidentity_NewDeviceCodeCredential w) as [cred|err]; simpl;
    [|reflexivity].
  destruct (cred_GetToken w cred _); reflexivity.
Qed.

(** The run of [getKustoClient]. *)
Lemma getKustoClient_run (kcsb : option ConnectionStringBuilder) (w : World) :
  getKustoClient kcsb w =
  ([EvKustoNew kcsb],
   match azkustodata_New w kcsb with
   | inl client => Returns (Some client, None)
   | inr err =>
       Returns (None, Some (Errorf_w "error creating kusto client: " err))
   end).
Proof.
  unfold getKustoClient, azkustodata_New_call. go_unfold. simpl.
  destruct (azkustodata_New w kcsb); reflexivity.
Qed.

(* ================================================================== *)
(** ** [AuthType.String] *)

(** X1.  [String] tells the auth types apart: it returns "BearerToken"
    for [BearerToken] only, "Interactive" for [Interactive] only, and
    "Unknown" exactly for the values that are neither. *)
Theorem AuthType_String_tells_apart (a : AuthType) :
  (AuthType_String a = "BearerToken" <-> a = BearerToken)
  /\ (AuthType_String a = "Interactive" <-> a = Interactive)
  /\ (AuthType_String a = "Unknown" <-> a <> BearerToken /\ a <> Interactive).
Proof.
  unfold AuthType_String.
  destruct (Z.eqb_spec a BearerToken) as [->|H0].
  - repeat split; try discriminate; try reflexivity.
    intros [H _]. now destruct H.
  - destruct (Z.eqb_spec a Interactive) as [->|H1].
    + repeat split; try discriminate; try reflexivity.
      intros [_ H]. now destruct H.
    + repeat split; try discriminate; try assumption;
        intros ->; [now destruct H0 | now destruct H1].
Qed.

(* ================================================================== *)
(** ** [getAzBearerToken] and [getKustoConnStr] *)

(** X2.  [getAzBearerToken] never panics and returns either a token with
    a nil error or a nil token with an error, never both and never
    neither.  A returned token is the one the identity provider issued
    for the scope.  A returned error is flat: it was formatted with [%v],
    so [errors.Unwrap] gives nil although its text ends with the text of
    the SDK error. *)
Theorem getAzBearerToken_token_or_flat_error (w : World) :
  exists r, completion_of getAzBearerToken w = Returns r /\
    match r with
    | (Some token, None) =>
        exists cred,
          azidentity_NewDeviceCodeCredential w = inl cred
          /\ cred_GetToken w cred [KustoURL +++ "/.default"] = inl token
    | (None, Some e) =>
        Unwrap e = None
        /\ exists prefix cause, Error e = prefix +++ Error cause
           /\ (azidentity_NewDeviceCodeCredential w = inr cause
               \/ exists cred,
                    azidentity_NewDeviceCodeCredential w = inl cred
                    /\ cred_GetToken w cred [KustoURL +++ "/.default"] = inr cause)
    | _ => False
    end.
Proof.
  unfold getAzBearerToken, NewDeviceCodeCredential, GetToken.
  go_unfold. simpl.
  destruct (azidentity_NewDeviceCodeCredential w) as [cred|err] eqn:Hlogin; simpl.
  - destruct (cred_GetToken w cred _) as [token|err] eqn:Htok; simpl;
      eexists; (split; [reflexivity|]); cbv beta iota.
    + exists cred. split; [reflexivity | exact Htok].
    + split; [reflexivity|]. do 2 eexists. split; [reflexivity|].
      right. exists cred. split; [reflexivity | exact Htok].
  - eexists; split; [reflexivity|]. cbv beta iota.
    split; [reflexivity|]. do 2 eexists. split; [reflexivity|]. now left.
Qed.

(** X3.  [getKustoConnStr] never panics, whatever the auth type and
    the world: the token pointer is dereferenced only after the error was
    found nil.  It returns either a descriptor with a nil error or a nil
    descriptor with an error.  A returned descriptor names [KustoURL] as
    its data source, and asks for default credentials exactly in
    interactive mode. *)
Theorem getKustoConnStr_never_panics (a : AuthType) (w : World) :
  exists r, completion_of (getKustoConnStr a) w = Returns r /\
    match r with
    | (Some kcsb, None) =>
        DataSource kcsb = KustoURL
        /\ (a = BearerToken \/ a = Interactive)
        /\ (DefaultAuth kcsb = true <-> a = Interactive)
    | (None, Some _) => a <> Interactive
    | _ => False
    end.
Proof.
  unfold completion_of.
  destruct (Z.eqb_spec a BearerToken) as [->|H0].
  - rewrite getKustoConnStr_BearerToken_run.
    destruct (azidentity_NewDeviceCodeCredential w) as [cred|err]; simpl.
    + destruct (cred_GetToken w cred _) as [token|err];
        eexists; (split; [reflexivity|]); cbv beta iota.
      * split; [reflexivity|]. split; [now left|].
        split; [discriminate|]. intros H; discriminate H.
      * intros H; discriminate H.
    + eexists; split; [reflexivity|]. intros H; discriminate H.
  - unfold getKustoConnStr. rewrite (proj2 (Z.eqb_neq _ _) H0).
    destruct (Z.eqb_spec a Interactive) as [->|H1];
      eexists; (split; [reflexivity|]); cbv beta iota.
    + split; [reflexivity|]. split; [now right|]. split; reflexivity.
    + exact H1.
Qed.

(* ================================================================== *)
(** ** [ingestData]: what it does not do *)

(** X4.  [ingestData] reads the clock, writes the file and submits it
    only if the ingestion client could be constructed: when
    [azkustoingest.New] fails the construction attempt is its only
    outside call.  It waits for a status exactly once when the submission
    was accepted, and not at all when it was rejected. *)
Theorem ingestData_nothing_without_client
  (kcsb : option ConnectionStringBuilder) (w : World) :
  match azkustoingest_New w kcsb ingestor_options with
  | inr _ =>
      trace_of (ingestData kcsb) w = [EvIngestNew kcsb ingestor_options]
  | inl ingestor =>
      status_waits (trace_of (ingestData kcsb) w)
      = match ingestor_FromFile w ingestor "./ingest.kql" ingestOptions with
        | inl status => [status]
        | inr _ => []
        end
  end.
Proof.
  unfold trace_of. rewrite ingestData_run.
  destruct (azkustoingest_New w kcsb ingestor_options) as [ingestor|err];
    [|reflexivity].
  cbv zeta.
  destruct (ingestor_FromFile w ingestor "./ingest.kql" ingestOptions);
    reflexivity.
Qed.

(* ================================================================== *)
(** ** [getData]: which rows are received and printed *)

Lemma clean_prefix_all (rows : list RowResult) :
  Forall (fun r => RowResult_Err r = None) rows ->
  clean_prefix rows = rows /\ first_bad rows = None.
Proof.
  intros H. induction H as [|r rows Hr _ [IH1 IH2]]; simpl; [split; reflexivity|].
  rewrite Hr, IH1, IH2. split; reflexivity.
Qed.

Lemma first_bad_None (rows : list RowResult) :
  first_bad rows = None -> Forall (fun r => RowResult_Err r = None) rows.
Proof.
  induction rows as [|r rows IH]; simpl; [constructor|].
  destruct (RowResult_Err r) eqn:Hr; [discriminate|].
  intros H. constructor; [exact Hr | exact (IH H)].
Qed.

(** What the rows loop prints and takes off the channel. *)
Lemma range_Rows_reads (rows : list RowResult) (w : World) :
  logged_rows (fst (range_Rows rows w)) = map RowResult_Row (clean_prefix rows)
  /\ received_rows (fst (range_Rows rows w))
     = clean_prefix rows
       ++ match first_bad rows with Some (rr, _) => [rr] | None => [] end
  /\ (snd (range_Rows rows w) = Returns None <-> first_bad rows = None).
Proof.
  rewrite range_Rows_run.
  destruct (first_bad rows) as [[rr e]|] eqn:Hbad; cbn [fst snd].
  - unfold logged_rows, received_rows. rewrite !filter_map_app.
    fold logged_rows. fold received_rows.
    rewrite logged_rows_events, received_rows_events. simpl.
    rewrite app_nil_r. repeat split; discriminate.
  - destruct (clean_prefix_all rows (first_bad_None rows Hbad)) as [-> _].
    rewrite logged_rows_events, received_rows_events, app_nil_r.
    repeat split; reflexivity.
Qed.

(** X5.  When the query succeeds and the primary table carries no
    error, [getData] prints exactly the rows in front of the first row
    result that carries an error, in the order delivered; it takes off
    the channel those row results and the failing one, if there is one;
    and it returns nil exactly when no row result carries an error, in
    which case every row delivered is printed. *)
Theorem getData_prints_error_free_prefix
  (client : option Client) (w : World) (dataset : Dataset)
  (primaryResult : TableResult) (more : list TableResult) :
  client_IterativeQuery w client "ArcSqlTelemetry" last5_query = inl dataset ->
  Dataset_Tables dataset = primaryResult :: more ->
  TableResult_Err primaryResult = None ->
  let rows := TableResult_Rows primaryResult in
  let t := trace_of (getData client) w in
  logged_rows t = map RowResult_Row (clean_prefix rows)
  /\ received_rows t
     = clean_prefix rows
       ++ match first_bad rows with Some (rr, _) => [rr] | None => [] end
  /\ (completion_of (getData client) w = Returns None
      <-> Forall (fun r => RowResult_Err r = None) rows)
  /\ (Forall (fun r => RowResult_Err r = None) rows ->
      logged_rows t = map RowResult_Row rows).
Proof.
  intros Hq Htables Herr rows t. subst t.
  unfold completion_of, trace_of, last5_query in *.
  rewrite getData_run, Hq. cbv zeta. rewrite Htables. cbn [hd_error].
  rewrite Herr. cbn [fst snd]. fold rows.
  destruct (range_Rows_reads rows w) as (Hlog & Hrecv & Hret).
  assert (Hl : logged_rows
                 (query_prefix client dataset ++ [EvLog "Results:"; EvLog ""]
                    ++ fst (range_Rows rows w) ++ [EvDatasetClose dataset])
               = map RowResult_Row (clean_prefix rows)).
  { unfold logged_rows. rewrite !filter_map_app. fold logged_rows.
    rewrite Hlog. simpl. now rewrite app_nil_r. }
  split; [exact Hl|]. split; [|split].
  - unfold received_rows. rewrite !filter_map_app. fold received_rows.
    rewrite Hrecv. simpl. now rewrite app_nil_r.
  - rewrite Hret. split; [apply first_bad_None|].
    intros H. exact (proj2 (clean_prefix_all rows H)).
  - intros H. rewrite Hl. now rewrite (proj1 (clean_prefix_all rows H)).
Qed.

Lemma getData_prints_error_free_prefix_witness :
  let rows := [Sample.row "2024-01-02T00:00:00Z"; Sample.row "2024-01-01T00:00:00Z"] in
  completion_of (getData None) (Sample.happy rows) = Returns None
  /\ logged_rows (trace_of (getData None) (Sample.happy rows))
     = [["2024-01-02T00:00:00Z"; "Sql"; "Isgood"];
        ["2024-01-01T00:00:00Z"; "Sql"; "Isgood"]].
Proof.
  cbv zeta.
  pose proof (getData_prints_error_free_prefix None
    (Sample.happy [Sample.row "2024-01-02T00:00:00Z";
                   Sample.row "2024-01-01T00:00:00Z"])
    (Sample.dataset [Sample.row "2024-01-02T00:00:00Z";
                     Sample.row "2024-01-01T00:00:00Z"])
    (Sample.table [Sample.row "2024-01-02T00:00:00Z";
                   Sample.row "2024-01-01T00:00:00Z"])
    [] eq_refl eq_refl eq_refl) as (_ & _ & Hret & Hall).
  cbv zeta in Hret, Hall.
  assert (Hclean : Forall (fun r => RowResult_Err r = None)
            (TableResult_Rows
               (Sample.table [Sample.row "2024-01-02T00:00:00Z";
                              Sample.row "2024-01-01T00:00:00Z"])))
    by (repeat constructor).
  split; [exact (proj2 Hret Hclean) | exact (Hall Hclean)].
Defined.

(** X6.  [getData] reads the first table only.  Whatever else the
    tables channel would deliver, exactly one value is taken off it, and
    two runs whose datasets agree on the first table end the same way,
    receive the same row results and print the same rows. *)
Theorem getData_reads_primary_table_only
  (client client' : option Client) (w w' : World) (dataset dataset' : Dataset)
  (primaryResult : TableResult) (more more' : list TableResult) :
  client_IterativeQuery w client "ArcSqlTelemetry" last5_query = inl dataset ->
  client_IterativeQuery w' client' "ArcSqlTelemetry" last5_query = inl dataset' ->
  Dataset_Tables dataset = primaryResult :: more ->
  Dataset_Tables dataset' = primaryResult :: more' ->
  tables_received (trace_of (getData client) w) = [Some primaryResult]
  /\ completion_of (getData client) w = completion_of (getData client') w'
  /\ received_rows (trace_of (getData client) w)
     = received_rows (trace_of (getData client') w')
  /\ logged_rows (trace_of (getData client) w)
     = logged_rows (trace_of (getData client') w').
Proof.
  intros Hq Hq' Ht Ht'.
  unfold completion_of, trace_of, last5_query in *.
  rewrite !getData_run, Hq, Hq'. cbv zeta. unfold query_prefix.
  rewrite Ht, Ht'. cbn [hd_error].
  destruct (TableResult_Err primaryResult) as [e|].
  - repeat split.
  - cbn [fst snd]. rewrite !range_Rows_run.
    destruct (first_bad (TableResult_Rows primaryResult)) as [[rr e]|];
      cbn [fst snd].
    + unfold tables_received, received_rows, logged_rows.
      cbn [app filter_map]. rewrite !filter_map_app. cbn [filter_map].
      split; [|repeat split].
      fold tables_received.
      assert (H : forall rows, tables_received (rows_events rows) = [])
        by (induction rows; [reflexivity | assumption]).
      now rewrite H.
    + unfold tables_received, received_rows, logged_rows.
      cbn [app filter_map]. rewrite !filter_map_app. cbn [filter_map].
      split; [|repeat split].
      fold tables_received.
      assert (H : forall rows, tables_received (rows_events rows) = [])
        by (induction rows; [reflexivity | assumption]).
      now rewrite H.
Qed.

Lemma getData_reads_primary_table_only_witness :
  let extra := {| TableResult_Rows := [Sample.bad_row];
                  TableResult_Err := Some (ErrorString "later table") |} in
  let d := {| Dataset_id := 8;
              Dataset_Tables := [Sample.table Sample.three_rows; extra] |} in
  completion_of (getData None) (set_IterativeQuery (Sample.happy []) (inl d))
  = completion_of (getData None) (Sample.happy Sample.three_rows).
Proof.
  intros extra d.
  exact (proj1 (proj2 (getData_reads_primary_table_only None None
    (set_IterativeQuery (Sample.happy []) (inl d))
    (Sample.happy Sample.three_rows)
    d (Sample.dataset Sample.three_rows)
    (Sample.table Sample.three_rows) [extra] []
    eq_refl eq_refl eq_refl eq_refl))).
Defined.

(** Row events are invisible to a reading that skips them. *)
Lemma filter_map_rows_events {B} (f : Event -> option B) (rows : list RowResult) :
  (forall rr, f (EvRecvRow rr) = None) ->
  (forall r, f (EvLogRow r) = None) ->
  filter_map f (rows_events rows) = [].
Proof.
  intros Hrecv Hlog. induction rows as [|rr rows IH]; simpl; [reflexivity|].
  now rewrite Hrecv, Hlog.
Qed.

Lemma filter_map_range_Rows {B} (f : Event -> option B) (rows : list RowResult)
  (w : World) :
  (forall rr, f (EvRecvRow rr) = None) ->
  (forall r, f (EvLogRow r) = None) ->
  filter_map f (fst (range_Rows rows w)) = [].
Proof.
  intros Hrecv Hlog. rewrite range_Rows_run.
  destruct (first_bad rows) as [[rr e]|]; cbn [fst].
  - rewrite filter_map_app, filter_map_rows_events by assumption.
    simpl. now rewrite Hrecv.
  - now apply filter_map_rows_events.
Qed.

(** The rows loop always returns. *)
Lemma range_Rows_returns (rows : list RowResult) (w : World) :
  exists r, snd (range_Rows rows w) = Returns r.
Proof.
  rewrite range_Rows_run.
  destruct (first_bad rows) as [[rr e]|]; eexists; reflexivity.
Qed.

(** When [getData] panics. *)
Lemma getData_panic_inv (client : option Client) (w : World) (v : PanicValue) :
  snd (getData client w) = Panics v ->
  v = PanicNilDereference
  /\ exists dataset,
       client_IterativeQuery w client "ArcSqlTelemetry" last5_query = inl dataset
       /\ Dataset_Tables dataset = [].
Proof.
  rewrite getData_run. unfold last5_query.
  destruct (client_IterativeQuery w client _ _) as [dataset|err];
    [|discriminate].
  cbv zeta.
  destruct (Dataset_Tables dataset) as [|primaryResult more] eqn:Ht;
    cbn [hd_error].
  - intros [= <-]. split; [reflexivity|]. exists dataset. now split.
  - destruct (TableResult_Err primaryResult); [discriminate|].
    destruct (range_Rows_returns (TableResult_Rows primaryResult) w) as [r Hr].
    cbn [snd]. rewrite Hr. discriminate.
Qed.

(** X7.  [getData] panics in one situation only: the query succeeded
    and the tables channel was closed without delivering a table, so
    that the received value is nil and its [Err] method is called on
    nil.  The panic is a nil dereference; the dataset is closed all the
    same, and nothing is printed. *)
Theorem getData_panics_iff_no_table (client : option Client) (w : World)
  (v : PanicValue) :
  completion_of (getData client) w = Panics v
  <-> v = PanicNilDereference
      /\ exists dataset,
           client_IterativeQuery w client "ArcSqlTelemetry" last5_query
           = inl dataset
           /\ Dataset_Tables dataset = []
           /\ trace_of (getData client) w
              = [EvIterativeQuery client "ArcSqlTelemetry" last5_query;
                 EvRecvTable None; EvDatasetClose dataset].
Proof.
  unfold completion_of, trace_of. split.
  - intros H. destruct (getData_panic_inv client w v H) as (-> & d & Hq & Ht).
    split; [reflexivity|]. exists d. split; [exact Hq|]. split; [exact Ht|].
    unfold last5_query in *. rewrite getData_run, Hq. cbv zeta.
    unfold query_prefix. rewrite Ht. reflexivity.
  - intros (-> & d & Hq & Ht & _).
    unfold last5_query in *. rewrite getData_run, Hq. cbv zeta.
    rewrite Ht. reflexivity.
Qed.

Example getData_no_table :
  completion_of (getData None)
    (set_IterativeQuery (Sample.happy [])
       (inl {| Dataset_id := 9; Dataset_Tables := [] |}))
  = Panics PanicNilDereference.
Proof. reflexivity. Qed.

(** X8.  [getData] logs the "Results:" header exactly when the query
    succeeded and the primary table was delivered without an error.  In
    every other run (the query fails, the primary table carries an
    error, no table arrives) no row result is taken off the channel and
    no row is printed. *)
Theorem getData_header_iff_primary_table_ok (client : option Client) (w : World) :
  let t := trace_of (getData client) w in
  (In "Results:" (log_lines t)
   <-> exists dataset primaryResult more,
         client_IterativeQuery w client "ArcSqlTelemetry" last5_query
         = inl dataset
         /\ Dataset_Tables dataset = primaryResult :: more
         /\ TableResult_Err primaryResult = None)
  /\ (In "Results:" (log_lines t) \/ (received_rows t = [] /\ logged_rows t = [])).
Proof.
  cbv zeta. unfold trace_of, last5_query. rewrite getData_run.
  destruct (client_IterativeQuery w client _ _) as [dataset|err].
  - cbv zeta.
    destruct (Dataset_Tables dataset) as [|primaryResult more] eqn:Ht;
      cbn [hd_error].
    + split; [|right; split; reflexivity].
      split; [intros []|]. intros (d & p & m & [= <-] & Ht' & _).
      rewrite Ht in Ht'. discriminate.
    + destruct (TableResult_Err primaryResult) as [e|] eqn:He.
      * split; [|right; split; reflexivity].
        split; [intros []|]. intros (d & p & m & [= <-] & Ht' & He').
        rewrite Ht in Ht'. injection Ht' as <- <-. rewrite He in He'.
        discriminate.
      * assert (Hin : In "Results:"
                  (log_lines
                     (fst (query_prefix client dataset
                           ++ [EvLog "Results:"; EvLog ""]
                           ++ fst (range_Rows (TableResult_Rows primaryResult) w)
                           ++ [EvDatasetClose dataset],
                           snd (range_Rows (TableResult_Rows primaryResult) w)))))
          by (cbn [fst]; unfold log_lines; rewrite !filter_map_app;
              apply in_or_app; right; apply in_or_app; left; left; reflexivity).
        split; [|left; exact Hin].
        split; [|intros _; exact Hin].
        intros _. exists dataset, primaryResult, more. now repeat split.
  - split; [|right; split; reflexivity].
    split; [intros []|]. intros (d & p & m & H & _). discriminate H.
Qed.

(* ================================================================== *)
(** ** [main]: what holds of every run *)

(** [ingestData] always returns. *)
Lemma ingestData_returns (kcsb : option ConnectionStringBuilder) (w : World) :
  exists r, snd (ingestData kcsb w) = Returns r.
Proof.
  rewrite ingestData_run.
  destruct (azkustoingest_New w kcsb ingestor_options) as [ingestor|err];
    [|eexists; reflexivity].
  cbv zeta.
  destruct (ingestor_FromFile w ingestor "./ingest.kql" ingestOptions);
    eexists; reflexivity.
Qed.

(** A reading of [ingestData]'s trace, by what the outside answers. *)
Lemma filter_map_ingestData {B} (f : Event -> option B)
  (kcsb : option ConnectionStringBuilder) (w : World) :
  filter_map f (fst (ingestData kcsb w)) =
  match azkustoingest_New w kcsb ingestor_options with
  | inr _ => filter_map f [EvIngestNew kcsb ingestor_options]
  | inl ingestor =>
      filter_map f (ingest_prefix kcsb ingestor (time_Now_UTC w))
      ++ match ingestor_FromFile w ingestor "./ingest.kql" ingestOptions with
         | inl status => filter_map f [EvStatusWait status; EvIngestorClose ingestor]
         | inr _ => filter_map f [EvIngestorClose ingestor]
         end
  end.
Proof.
  rewrite ingestData_run.
  destruct (azkustoingest_New w kcsb ingestor_options) as [ingestor|err];
    [|reflexivity].
  cbv zeta.
  destruct (ingestor_FromFile w ingestor "./ingest.kql" ingestOptions);
    cbn [fst]; apply filter_map_app.
Qed.

(** A reading of [getData]'s trace that skips the row events. *)
Lemma filter_map_getData {B} (f : Event -> option B)
  (client : option Client) (w : World) :
  (forall rr, f (EvRecvRow rr) = None) ->
  (forall r, f (EvLogRow r) = None) ->
  filter_map f (fst (getData client w)) =
  match client_IterativeQuery w client "ArcSqlTelemetry" last5_query with
  | inr _ => filter_map f [EvIterativeQuery client "ArcSqlTelemetry" last5_query]
  | inl dataset =>
      filter_map f (query_prefix client dataset)
      ++ match hd_error (Dataset_Tables dataset) with
         | Some primaryResult =>
             match TableResult_Err primaryResult with
             | Some _ => []
             | None => filter_map f [EvLog "Results:"; EvLog ""]
             end
         | None => []
         end
      ++ filter_map f [EvDatasetClose dataset]
  end.
Proof.
  intros Hrecv Hlog. rewrite getData_run. unfold last5_query.
  destruct (client_IterativeQuery w client _ _) as [dataset|err];
    [|reflexivity].
  cbv zeta.
  destruct (hd_error (Dataset_Tables dataset)) as [primaryResult|];
    [|cbn [fst]; now rewrite filter_map_app].
  destruct (TableResult_Err primaryResult);
    [cbn [fst]; now rewrite filter_map_app|].
  cbn [fst]. rewrite !filter_map_app.
  now rewrite (filter_map_range_Rows f _ w Hrecv Hlog).
Qed.

Lemma closed_clients_ingestData (kcsb : option ConnectionStringBuilder) (w : World) :
  closed_clients (fst (ingestData kcsb w)) = [].
Proof.
  unfold closed_clients. rewrite filter_map_ingestData.
  destruct (azkustoingest_New w kcsb ingestor_options) as [ingestor|err];
    [|reflexivity].
  destruct (ingestor_FromFile w ingestor "./ingest.kql" ingestOptions);
    reflexivity.
Qed.

Lemma closed_clients_getData (client : option Client) (w : World) :
  closed_clients (fst (getData client w)) = [].
Proof.
  unfold closed_clients. rewrite filter_map_getData by (intro; reflexivity).
  destruct (client_IterativeQuery w client _ _) as [dataset|err];
    [|reflexivity].
  destruct (hd_error (Dataset_Tables dataset)) as [primaryResult|];
    [|reflexivity].
  destruct (TableResult_Err primaryResult); reflexivity.
Qed.

(** X9.  Once [getKustoClient] has returned a client, [main] closes it
    exactly once, as the last thing it does, whether it returns or
    panics at the ingest or the query stage.  If the run ends before a
    client exists, nothing is closed; a nil client is never closed. *)
Theorem main_closes_client_exactly_once (w : World) :
  let t := trace_of main w in
  match completion_of (getKustoConnStr BearerToken) w with
  | Returns (kcsb, None) =>
      match azkustodata_New w kcsb with
      | inl c =>
          closed_clients t = [Some c]
          /\ exists t', t = t' ++ [EvClientClose (Some c)]
      | inr _ => closed_clients t = []
      end
  | _ => closed_clients t = []
  end.
Proof.
  cbv zeta. unfold trace_of, completion_of. rewrite main_trace.
  rewrite getKustoConnStr_BearerToken_run.
  destruct (azidentity_NewDeviceCodeCredential w) as [cred|err];
    [|reflexivity].
  destruct (cred_GetToken w cred _) as [token|err]; [|reflexivity].
  cbn [fst snd]. rewrite getKustoClient_run.
  destruct (azkustodata_New w _) as [c|err]; [|reflexivity].
  cbn [fst snd]. split.
  - pose proof (closed_clients_ingestData (Some (bearer_descriptor token)) w) as H3.
    pose proof (closed_clients_getData (Some c) w) as H4.
    destruct (snd (ingestData _ w)) as [[e3|]|v3];
      [| destruct (snd (getData _ w)) as [[e4|]|v4] |];
      unfold closed_clients in *;
      repeat (cbn [app filter_map]; rewrite ?filter_map_app);
      rewrite ?H3, ?H4; reflexivity.
  - cbn [app]. rewrite (app_assoc (fst (ingestData _ w))).
    eexists (_ :: _ :: _ :: _ :: _ :: _). reflexivity.
Qed.




(** The lines [ingestData] and [getData] log are not the final line. *)
Lemma tab_line_not_Done (s : string) : tab +++ " " +++ s <> "Done.".
Proof. unfold tab. cbn. intros H. discriminate H. Qed.

Lemma no_Done_in_ingestData (kcsb : option ConnectionStringBuilder) (w : World) :
  ~ In "Done." (log_lines (fst (ingestData kcsb w))).
Proof.
  unfold log_lines. rewrite filter_map_ingestData.
  destruct (azkustoingest_New w kcsb ingestor_options) as [ingestor|err];
    [|intros []].
  intros H. apply in_app_or in H. destruct H as [H|H].
  - cbn [ingest_prefix filter_map] in H.
    destruct H as [H|[H|[H|[]]]]; [discriminate H| |discriminate H].
    exact (tab_line_not_Done _ H).
  - destruct (ingestor_FromFile w ingestor "./ingest.kql" ingestOptions);
      destruct H.
Qed.

Lemma no_Done_in_getData (client : option Client) (w : World) :
  ~ In "Done." (log_lines (fst (getData client w))).
Proof.
  unfold log_lines. rewrite filter_map_getData by (intro; reflexivity).
  destruct (client_IterativeQuery w client _ _) as [dataset|err];
    [|intros []].
  destruct (hd_error (Dataset_Tables dataset)) as [primaryResult|];
    [|intros []].
  destruct (TableResult_Err primaryResult); [intros []|].
  intros [H|[H|[]]]; discriminate H.
Qed.

Ltac log_norm :=
  unfold log_lines;
  repeat (progress cbn [app filter_map] || rewrite filter_map_app);
  fold log_lines.

Ltac not_done :=
  log_norm; rewrite ?app_nil_r;
  repeat first [rewrite in_app_iff | progress cbn [In]];
  split; [split; [intuition discriminate | discriminate]
         | split; [discriminate|] ].

(** X10.  [main] logs "Done." exactly when it returns normally, and it
    returns normally exactly when each of its four stages returned a nil
    error.  So the final log line certifies that the descriptor was
    built, the client constructed, the row ingested and the query read to
    the end. *)
Theorem main_Done_iff_all_stages_succeed (w : World) :
  (In "Done." (log_lines (trace_of main w)) <-> completion_of main w = Returns tt)
  /\ (completion_of main w = Returns tt
      <-> exists kcsb client,
            completion_of (getKustoConnStr BearerToken) w = Returns (kcsb, None)
            /\ completion_of (getKustoClient kcsb) w = Returns (client, None)
            /\ completion_of (ingestData kcsb) w = Returns None
            /\ completion_of (getData client) w = Returns None).
Proof.
  unfold trace_of, completion_of. rewrite main_trace, main_completion.
  assert (H1 : ~ In "Done." (log_lines (fst (getKustoConnStr BearerToken w)))).
  { rewrite getKustoConnStr_BearerToken_run.
    destruct (azidentity_NewDeviceCodeCredential w); intros []. }
  destruct (getKustoConnStr BearerToken w) as [t1 [[kcsb [e1|]]|v1]];
    cbn [fst snd] in *.
  1, 3: not_done; intros (k & c & Ea & _); discriminate Ea.
  assert (H2 : ~ In "Done." (log_lines (fst (getKustoClient kcsb w))))
    by (rewrite getKustoClient_run; intros []).
  destruct (getKustoClient kcsb w) as [t2 [[client [e2|]]|v2]] eqn:G2;
    cbn [fst snd] in *.
  1, 3: not_done; intros (k & c & Ea & Eb & _); injection Ea as <-;
    rewrite G2 in Eb; discriminate Eb.
  pose proof (no_Done_in_ingestData kcsb w) as H3.
  destruct (ingestData kcsb w) as [t3 [[e3|]|v3]] eqn:G3; cbn [fst snd] in *.
  1, 3: not_done; intros (k & c & Ea & Eb & Ec & _); injection Ea as <-;
    rewrite G3 in Ec; discriminate Ec.
  pose proof (no_Done_in_getData client w) as H4.
  destruct (getData client w) as [t4 [[e4|]|v4]] eqn:G4; cbn [fst snd] in *.
  1, 3: not_done; intros (k & c & Ea & Eb & Ec & Ed); injection Ea as <-;
    rewrite G2 in Eb; injection Eb as <-; rewrite G4 in Ed; discriminate Ed.
  split.
  - split; [reflexivity|]. intros _. log_norm.
    repeat first [rewrite in_app_iff | progress cbn [In]]. intuition.
  - split; [|reflexivity]. intros _. exists kcsb, client.
    rewrite G2, G3, G4. repeat split.
Qed.

Lemma descriptors_used_ingestData (kcsb : option ConnectionStringBuilder)
  (w : World) :
  descriptors_used (fst (ingestData kcsb w)) = [kcsb].
Proof.
  unfold descriptors_used. rewrite filter_map_ingestData.
  destruct (azkustoingest_New w kcsb ingestor_options) as [ingestor|err];
    [|reflexivity].
  destruct (ingestor_FromFile w ingestor "./ingest.kql" ingestOptions);
    reflexivity.
Qed.

Lemma descriptors_used_getData (client : option Client) (w : World) :
  descriptors_used (fst (getData client w)) = [].
Proof.
  unfold descriptors_used. rewrite filter_map_getData by (intro; reflexivity).
  destruct (client_IterativeQuery w client _ _) as [dataset|err];
    [|reflexivity].
  destruct (hd_error (Dataset_Tables dataset)) as [primaryResult|];
    [|reflexivity].
  destruct (TableResult_Err primaryResult); reflexivity.
Qed.

(** X11.  Both clients are constructed from one descriptor.  In every
    run of [main] the descriptor handed to [azkustodata.New] and the one
    handed to [azkustoingest.New] are the same: the bearer-token
    descriptor for [KustoURL] carrying the token that [getAzBearerToken]
    returned.  The ingestion client is constructed only if the Kusto
    client was, and no client is constructed without a token. *)
Theorem main_clients_share_descriptor (w : World) :
  descriptors_used (trace_of main w) =
  match completion_of getAzBearerToken w with
  | Returns (Some token, None) =>
      let kcsb := Some {| DataSource := KustoURL;
                          UserToken := Token token;
                          DefaultAuth := false |} in
      match azkustodata_New w kcsb with
      | inl _ => [kcsb; kcsb]
      | inr _ => [kcsb]
      end
  | _ => []
  end.
Proof.
  unfold trace_of, completion_of. rewrite main_trace.
  rewrite getKustoConnStr_BearerToken_run.
  unfold getAzBearerToken, NewDeviceCodeCredential, GetToken. go_unfold.
  cbn [fst snd].
  destruct (azidentity_NewDeviceCodeCredential w) as [cred|err];
    [|reflexivity].
  cbn [fst snd app].
  destruct (cred_GetToken w cred _) as [token|err]; [|reflexivity].
  cbn [fst snd app]. cbv zeta.
  change {| DataSource := KustoURL; UserToken := Token token;
            DefaultAuth := false |} with (bearer_descriptor token).
  rewrite getKustoClient_run.
  destruct (azkustodata_New w _) as [c|err]; [|reflexivity].
  cbn [fst snd].
  pose proof (descriptors_used_ingestData (Some (bearer_descriptor token)) w) as H3.
  pose proof (descriptors_used_getData (Some c) w) as H4.
  destruct (snd (ingestData _ w)) as [[e3|]|v3];
    [| destruct (snd (getData _ w)) as [[e4|]|v4] |];
    unfold descriptors_used in *;
    repeat (progress cbn [app filter_map] || rewrite filter_map_app);
    rewrite ?H3, ?H4; reflexivity.
Qed.





(** X13.  [main] panics with a nil dereference in one situation only:
    the descriptor was built, the client constructed and the row
    ingested, and then the query succeeded but its tables channel was
    closed without delivering a table.  No earlier stage can panic. *)
Theorem main_nil_dereference_iff_no_table (w : World) :
  completion_of main w = Panics PanicNilDereference
  <-> exists kcsb client dataset,
        completion_of (getKustoConnStr BearerToken) w = Returns (kcsb, None)
        /\ completion_of (getKustoClient kcsb) w = Returns (client, None)
        /\ completion_of (ingestData kcsb) w = Returns None
        /\ client_IterativeQuery w client "ArcSqlTelemetry" last5_query
           = inl dataset
        /\ Dataset_Tables dataset = [].
Proof.
  unfold completion_of. rewrite main_completion. split.
  - destruct (snd (getKustoConnStr BearerToken w)) as [[kcsb [e1|]]|v1] eqn:G1;
      [discriminate| |].
    + destruct (snd (getKustoClient kcsb w)) as [[client [e2|]]|v2] eqn:G2;
        [discriminate| |].
      * destruct (snd (ingestData kcsb w)) as [[e3|]|v3] eqn:G3;
          [discriminate| |].
        -- destruct (snd (getData client w)) as [[e4|]|v4] eqn:G4;
             [discriminate|discriminate|].
           intros _.
           destruct (getData_panic_inv client w _ G4) as (_ & d & Hq & Ht).
           exists kcsb, client, d. repeat split; assumption.
        -- destruct (ingestData_returns kcsb w) as [r Hr].
           rewrite Hr in G3. discriminate G3.
      * rewrite getKustoClient_run in G2. cbn [snd] in G2.
        destruct (azkustodata_New w kcsb); discriminate G2.
    + rewrite getKustoConnStr_BearerToken_run in G1.
      destruct (azidentity_NewDeviceCodeCredential w) as [cred|err];
        cbn [snd] in G1; [|discriminate G1].
      destruct (cred_GetToken w cred _); discriminate G1.
  - intros (kcsb & client & d & -> & -> & -> & Hq & Ht).
    rewrite getData_run. unfold last5_query in Hq. rewrite Hq. cbv zeta.
    rewrite Ht. reflexivity.
Qed.
